(** * Wyckoff multi-agent analysis: cache, retry, stream assembly, roles and
    orchestrator, embedded from the Python sources and checked against the
    specification.

    Python values are modelled by small inductive types, exceptions by an
    explicit [outcome], and the outside world (market-data provider, reasoning
    engine, clock) by an abstract state that every collaborator threads. *)

From Stdlib Require Import String List ZArith QArith Lia Lqa Bool.
From stdpp Require Import base option list strings gmap.

Local Open Scope string_scope.
Local Open Scope Z_scope.

(* ===================================================================== *)
(** * Python-level plumbing: exceptions and effectful computations        *)
(* ===================================================================== *)

Module Py.

(** An instance of a subclass of Python's [Exception]: what
    [type(e).__name__] and [str(e)] give. *)
Record exn := mkExn { exn_type : string; exn_msg : string }.

(** The result of evaluating a Python call: a value, or a raised exception. *)
Inductive outcome (A : Type) : Type :=
  | Ret (a : A)
  | Raise (e : exn).
Global Arguments Ret {A} a.
Global Arguments Raise {A} e.

(** A computation over a world [W] that may raise. *)
Definition M (W A : Type) : Type := W -> outcome A * W.

Definition ret {W A} (a : A) : M W A := fun w => (Ret a, w).

Definition raise {W A} (e : exn) : M W A := fun w => (Raise e, w).

Definition bind {W A B} (m : M W A) (k : A -> M W B) : M W B :=
    fun w => match m w with
             | (Ret a, w') => k a w'
             | (Raise e, w') => (Raise e, w')
             end.

(** [try: m  except Exception as e: h e] *)
Definition try_except {W A} (m : M W A) (h : exn -> M W A) : M W A :=
    fun w => match m w with
             | (Ret a, w') => (Ret a, w')
             | (Raise e, w') => h e w'
             end.

Definition ValueError (msg : string) : exn := mkExn "ValueError" msg.

(** [range(n)] for an [int] n: empty when [n <= 0]. *)
Definition range (n : Z) : list Z := map Z.of_nat (seq 0 (Z.to_nat n)).

(** [needle in hay] on strings. *)
Fixpoint contains (needle hay : string) : bool :=
    String.prefix needle hay ||
    match hay with
    | EmptyString => false
    | String _ rest => contains needle rest
    end.

End Py.

Export Py.

Declare Scope py_scope.
Delimit Scope py_scope with py.
Notation "x <~ m ;; k" := (bind m (fun x => k))
  (at level 100, m at next level, right associativity) : py_scope.

(* ===================================================================== *)
(** * data_fetcher/base.py, data_fetcher/data_fetcher.py: [retry]          *)
(* ===================================================================== *)

Module Retry.

(** What an observer of the wrapper sees: each invocation of the wrapped
    function (with the loop index) and each [time.sleep]. Log lines are not
    recorded. *)
Inductive event :=
  | EvCall (attempt : Z)
  | EvSleep (seconds : Z).

Definition is_call (ev : event) : bool :=
    match ev with EvCall _ => true | EvSleep _ => false end.

Definition is_sleep (ev : event) : bool :=
    match ev with EvSleep _ => true | EvCall _ => false end.

Definition calls (tr : list event) : nat := length (List.filter is_call tr).
Definition sleeps (tr : list event) : nat := length (List.filter is_sleep tr).

Section wrapper.
Context {W A : Type}.
Variables (max_retries retry_delay : Z).
Variable func : M W A.

(** The body of [for attempt in range(max_retries)]. [None] is Python's
    [None], returned both from the [else] branch of the handler and after
    the loop. *)
Fixpoint attempts (todo : list Z) (w : W) : option A * W * list event :=
      match todo with
      | [] => (None, w, [])
      | attempt :: rest =>
          match func w with
          | (Ret v, w') => (Some v, w', [EvCall attempt])
          | (Raise e, w') =>
              if attempt <? max_retries - 1
              then let '(r, w'', tr) := attempts rest w' in
                   (r, w'', EvCall attempt :: EvSleep retry_delay :: tr)
              else (None, w', [EvCall attempt])
          end
      end.

Definition wrapper (w : W) : option A * W * list event :=
      attempts (range max_retries) w.

End wrapper.

End Retry.

(* ===================================================================== *)
(** * pandas values                                                       *)
(* ===================================================================== *)

Module Pandas.

(** A [pandas.DataFrame] as far as this program looks at it: its column
    labels and its rows of cells. *)
Record DataFrame := mkDF { columns : list string; rows : list (list string) }.

(** [df.empty]: some axis has length zero. *)
Definition empty (df : DataFrame) : bool :=
    match columns df, rows df with
    | _ :: _, _ :: _ => false
    | _, _ => true
    end.

(** [df is None or df.empty] *)
Definition missing (d : option DataFrame) : bool :=
    match d with
    | None => true
    | Some df => empty df
    end.

End Pandas.

Export Pandas.

(* ===================================================================== *)
(** * data_fetcher/base.py, data_fetcher/data_fetcher.py: [CacheManager]   *)
(* ===================================================================== *)

Module Cache.

(** What a cache file holds: a pickle that loads back to the DataFrame it
    was dumped from, or bytes on which [open]/[pickle.load] raises. *)
Inductive blob :=
  | Pickled (df : DataFrame)
  | Unreadable (why : exn).

Record file := mkFile { st_mtime : Q; content : blob }.

(** The cache directory and the wall clock ([datetime.now().timestamp()], in
    seconds). *)
Record world := mkWorld { now : Q; files : gmap string file }.

Definition set_files (fs : gmap string file) (w : world) : world :=
    {| now := now w; files := fs |}.

(** The clock advances by [delta] seconds. *)
Definition elapse (delta : Q) (w : world) : world :=
    {| now := (now w + delta)%Q; files := files w |}.

(** [CACHE_DIR / f"{data_type}_{symbol}.pkl"] *)
Definition get_cache_path (symbol data_type : string) : string :=
    "cache/" +:+ data_type +:+ "_" +:+ symbol +:+ ".pkl".

(** [with open(cache_path, 'rb') as f: return pickle.load(f)] *)
Definition pickle_load (f : file) : M world DataFrame :=
    match content f with
    | Pickled df => ret df
    | Unreadable why => raise why
    end.

(** [a > b] on timestamps. *)
Definition Qgtb (a b : Q) : bool := negb (Qle_bool a b).

Definition load_cache (symbol data_type : string) (expiry_hours : Z)
    : M world (option DataFrame) :=
    fun w =>
      let cache_path := get_cache_path symbol data_type in
      match files w !! cache_path with
      | None => (Ret None, w)
      | Some f =>
          if Qgtb (now w - st_mtime f) (inject_Z (expiry_hours * 3600))
          then (Ret None, set_files (delete cache_path (files w)) w)
          else try_except
                 (df <~ pickle_load f ;; ret (Some df))%py
                 (fun e => ret None) w
      end.

Section save.

(** Whether [open(cache_path, 'wb')] raises in this world, and whether
    [pickle.dump(data, f)] raises once the file is open. *)
Variable open_error : string -> world -> option exn.
Variable dump_error : DataFrame -> world -> option exn.

(** What reading a file that was opened for writing and not written gives. *)
Definition truncated : blob := Unreadable (mkExn "EOFError" "Ran out of input").

(** [open(cache_path, 'wb')]: raises and leaves the store alone, or creates
    the file, or empties the one that is there. *)
Definition open_wb (cache_path : string) : M world unit :=
  fun w =>
    match open_error cache_path w with
    | Some e => (Raise e, w)
    | None =>
        (Ret tt,
         set_files (<[cache_path := mkFile (now w) truncated]> (files w)) w)
    end.

(** [pickle.dump(data, f)] on the open file: raises and leaves the file as
    it is, or writes the pickle. *)
Definition pickle_dump (data : DataFrame) (cache_path : string) : M world unit :=
  fun w =>
    match dump_error data w with
    | Some e => (Raise e, w)
    | None =>
        (Ret tt,
         set_files (<[cache_path := mkFile (now w) (Pickled data)]> (files w)) w)
    end.

(** [save_cache]: an exception of the write is caught and only logged. *)
Definition save_cache (data : DataFrame) (symbol data_type : string)
    : M world unit :=
  let cache_path := get_cache_path symbol data_type in
  try_except
    (_ <~ open_wb cache_path ;; pickle_dump data cache_path)%py
    (fun e => ret tt).

(** The write goes through. *)
Definition writes (data : DataFrame) (symbol data_type : string) (w : world)
    : Prop :=
  open_error (get_cache_path symbol data_type) w = None
  /\ dump_error data (snd (open_wb (get_cache_path symbol data_type) w)) = None.

End save.

End Cache.

(* ===================================================================== *)
(** * ai_analyzer/ai_analyzer.py: [process_response], [askDeepSeek]        *)
(* ===================================================================== *)

Module Stream.

(** [choice.delta]: a field is [None] here when the attribute is absent
    ([hasattr] false) or holds [None]. *)
Record delta := mkDelta {
    reasoning_content : option string;
    content : option string
  }.

Record choice := mkChoice {
    choice_delta : option delta;
    finish_reason : option string
  }.

Record chunk := mkChunk { choices : list choice }.

(** What iterating the response yields next: a chunk, or an exception
    raised by the transport in the middle of the stream. *)
Inductive item :=
  | Chunk (c : chunk)
  | Broken (e : exn).

(** The locals of [process_response]. *)
Record assembly := mkAssembly {
    reasoning_buffer : string;
    content_buffer : string;
    finished : bool
  }.

Definition add (buffer : string) (fragment : option string) : string :=
    match fragment with
    | Some s => buffer +:+ s
    | None => buffer
    end.

(** The [for chunk in response] loop; [Raise] when the iteration raises. *)
Fixpoint consume (response : list item) (reasoning content : string)
    : outcome assembly :=
    match response with
    | [] => Ret (mkAssembly reasoning content false)
    | Broken e :: _ => Raise e
    | Chunk c :: rest =>
        match choices c with
        | [] => consume rest reasoning content
        | first_choice :: _ =>
            match choice_delta first_choice with
            | None => consume rest reasoning content
            | Some d =>
                if decide (finish_reason first_choice = Some "stop")
                then Ret (mkAssembly reasoning content true)
                else consume rest
                       (add reasoning (reasoning_content d))
                       (add content (Stream.content d))
            end
        end
    end.

(** [None] is Python's [None]; [max_retries] and [attempt] only feed the
    warning that is logged. *)
Definition process_response (response : list item) (max_retries attempt : Z)
    : option string :=
    match consume response "" "" with
    | Ret a => if finished a then Some (content_buffer a) else None
    | Raise e => None
    end.

End Stream.

Module Engine.

Import Stream.
Export Retry.

(** The two messages of the request sent to the reasoning engine; the
    system prompt is whatever the role built, possibly [None]. *)
Record request := mkRequest {
    system_content : option string;
    user_content : string
  }.

Definition nl : string := String (Ascii.ascii_of_nat 10) EmptyString.

Definition no_data_message : string := "无有效股票历史数据，无法进行分析".
Definition failure_message : string := "请求未正常结束,请稍后再试。".

(** [if content:] on a [str] *)
Definition nonempty (s : string) : bool :=
    match s with
    | EmptyString => false
    | String _ _ => true
    end.

Section askDeepSeek.
Context {W : Type}.

(** [df.to_json(orient='records', date_format='iso')] *)
Variable to_json : DataFrame -> outcome string.

(** [OpenAI(...).chat.completions.create(..., stream=True)]: raises, or
    returns the stream, given here by the items its iteration yields. *)
Variable create : request -> M W (list item).

Definition compose_user_content (stock_code stock_json stock_fund_flow_json : string)
      : string :=
      let user_content :=
        "请根据股票代码 " +:+ stock_code +:+
        " 的最新历史数据和资金流向数据，给出分析和投资建议。" +:+ nl +:+ nl +:+
        "历史行情数据如下：" +:+ nl +:+ stock_json +:+ nl in
      if nonempty stock_fund_flow_json
      then user_content +:+ nl +:+ "资金流向数据如下：" +:+ nl +:+
           stock_fund_flow_json +:+ nl
      else user_content.

(** [5 if "API" in str(e) else 2] *)
Definition wait_time (e : exn) : Z :=
      if contains "API" (exn_msg e) then 5 else 2.

(** The [for attempt in range(max_retries)] loop and the two statements
    after it. *)
Fixpoint ask_attempts (req : request) (max_retries : Z) (todo : list Z) (w : W)
      : string * W * list event :=
      match todo with
      | [] => (failure_message, w, [])
      | attempt :: rest =>
          let continue (w' : W) (slept : list event) :=
            let '(r, w'', tr) := ask_attempts req max_retries rest w' in
            (r, w'', EvCall attempt :: slept ++ tr) in
          match create req w with
          | (Ret response, w') =>
              match process_response response max_retries attempt with
              | Some content =>
                  if nonempty content
                  then (content, w', [EvCall attempt])
                  else continue w' []
              | None => continue w' []
              end
          | (Raise e, w') =>
              if attempt <? max_retries - 1
              then continue w' [EvSleep (wait_time e)]
              else continue w' []
          end
      end.

Definition askDeepSeek (stock_df stock_fund_flow_df : option DataFrame)
        (stock_code : string) (prompt_content : option string) (max_retries : Z)
        (w : W) : outcome string * W * list event :=
      match stock_df with
      | None => (Ret no_data_message, w, [])
      | Some df =>
          if empty df then (Ret no_data_message, w, []) else
          match to_json df with
          | Raise e => (Raise e, w, [])
          | Ret stock_json =>
              let fund_json :=
                match stock_fund_flow_df with
                | Some fdf => if empty fdf then Ret "" else to_json fdf
                | None => Ret ""
                end in
              match fund_json with
              | Raise e => (Raise e, w, [])
              | Ret stock_fund_flow_json =>
                  let req := mkRequest prompt_content
                    (compose_user_content stock_code stock_json stock_fund_flow_json) in
                  let '(r, w', tr) :=
                    ask_attempts req max_retries (range max_retries) w in
                  (Ret r, w', tr)
              end
          end
      end.

(** An attempt fails: the request raises, or its stream does not assemble. *)
Definition attempt_fails (req : request) (max_retries : Z) (w : W) : Prop :=
  match create req w with
  | (Raise _, _) => True
  | (Ret response, _) =>
      forall attempt, process_response response max_retries attempt = None
  end.

End askDeepSeek.

End Engine.

(* ===================================================================== *)
(** * data_fetcher/data_fetcher.py, data_fetcher/stock_data_fetcher.py:
      [StockDataFetcher.get_stock_data]                                   *)
(* ===================================================================== *)

Module Fetcher.

Section fetcher.
(** The market-data provider together with the wall clock. *)
Context {E : Type}.

(** [ak.stock_zh_a_hist(symbol, period="daily", start_date, end_date,
    adjust="qfq")] *)
Variable stock_zh_a_hist : string -> string -> string -> M E DataFrame.

(** [datetime.now()] as a day number, and [strftime("%Y%m%d")]. *)
Variable today : E -> Z.
Variable strftime : Z -> string.

(** The interpreter's state the classmethod works on: the class attribute
    [_cache], which maps a symbol to a reference to a DataFrame object;
    the objects themselves; the provider; and a count of the calls made
    to the provider. *)
Record state := mkState {
      _cache : gmap string nat;
      heap : list DataFrame;
      provider : E;
      fetches : nat
    }.

(** [DateUtils.get_date_range(half_year)]: (start_date, end_date) *)
Definition get_date_range (half_year : Z) (e : E) : string * string :=
      (strftime (today e - half_year), strftime (today e)).

Definition call_provider (symbol : string) : M state DataFrame :=
      fun s =>
        let '(start_date, end_date) := get_date_range 183 (provider s) in
        let '(r, e') := stock_zh_a_hist symbol start_date end_date (provider s) in
        (r, {| _cache := _cache s; heap := heap s;
               provider := e'; fetches := S (fetches s) |}).

(** [cls._cache[symbol] = df] for a DataFrame object the provider has just
    created; gives the reference of the object. *)
Definition store (symbol : string) (df : DataFrame) : M state nat :=
      fun s =>
        let ref := length (heap s) in
        (Ret ref, {| _cache := <[symbol := ref]> (_cache s);
                     heap := heap s ++ [df];
                     provider := provider s; fetches := fetches s |}).

(** The undecorated method body. *)
Definition get_stock_data_body (symbol : string) : M state (option nat) :=
      fun s =>
        match _cache s !! symbol with
        | Some ref => (Ret (Some ref), s)
        | None =>
            try_except
              (df <~ call_provider symbol ;;
               ref <~ store symbol df ;;
               ret (Some ref))%py
              (fun e => ret None) s
        end.

(** [@retry(max_retries=3, retry_delay=1)] applied to the body. *)
Definition get_stock_data (symbol : string) (s : state) : option nat * state :=
      let '(r, s', _) := Retry.wrapper 3 1 (get_stock_data_body symbol) s in
      (mjoin r, s').

(** What may happen to the interpreter state between two calls. *)
Inductive step : state -> state -> Prop :=
    | step_call symbol s :
        step s (snd (get_stock_data symbol s))
    | step_world e' s :
        step s {| _cache := _cache s; heap := heap s;
                  provider := e'; fetches := fetches s |}
    | step_mutate ref df s :
        step s {| _cache := _cache s; heap := <[ref := df]> (heap s);
                  provider := provider s; fetches := fetches s |}.

End fetcher.

End Fetcher.

(* ===================================================================== *)
(** * agent/phase_hunter.py, agent/volume_detective.py,
      agent/spring_hunter.py, target_engineer.py, strength_commander.py    *)
(* ===================================================================== *)

Module Agent.

(** The Python values the roles and the orchestrator hand around. A [dict]
    keeps its insertion order. *)
#[local] Set Warnings "-register-all".
Inductive pyval :=
  | PStr (s : string)
  | PInt (z : Z)
  | PFloat (q : Q)
  | PBool (b : bool)
  | PList (l : list pyval)
  | PDict (d : list (string * pyval)).

(** The keys of a [dict], in order; [None] for a value that is not one. *)
Definition fields (v : pyval) : option (list string) :=
    match v with
    | PDict d => Some (map fst d)
    | _ => None
    end.

(** [v[key]] for a [dict] v. *)
Definition field (key : string) (v : pyval) : option pyval :=
    match v with
    | PDict d => snd <$> find (fun kv => bool_decide (fst kv = key)) d
    | _ => None
    end.

Definition debug_trace (e : exn) : pyval :=
    PList [PStr ("错误详情: " +:+ exn_msg e); PStr ("错误类型: " +:+ exn_type e)].

(** The default record each role writes out in its handlers; [reason] is
    the text put in front of [str(e)]. *)
Definition phase_hunter_default (reason : string) (e : exn) : pyval :=
    PDict [("角色", PStr "阶段猎手");
           ("信号", PStr "中性");
           ("阶段评分", PInt 3);
           ("关键结构", PList []);
           ("大盘影响", PBool false);
           ("止损位", PStr "¥0.00");
           ("置信度", PInt 50);
           ("理由", PStr (reason +:+ exn_msg e));
           ("_debug_reasoning", debug_trace e)].

Definition volume_detective_default (reason : string) (e : exn) : pyval :=
    PDict [("角色", PStr "量能侦探");
           ("信号", PStr "中性");
           ("努力结果比率", PStr "0.00");
           ("异常行为", PList []);
           ("机构验证", PStr "无数据");
           ("风险警告", PBool false);
           ("置信度", PInt 50);
           ("理由", PStr (reason +:+ exn_msg e));
           ("_debug_reasoning", debug_trace e)].

Definition spring_hunter_default (reason : string) (e : exn) : pyval :=
    PDict [("角色", PStr "弹簧猎人");
           ("信号", PStr "中性");
           ("关键事件", PList []);
           ("事件验证", PBool false);
           ("失败风险", PBool false);
           ("置信度", PInt 50);
           ("理由", PStr (reason +:+ exn_msg e));
           ("_debug_reasoning", debug_trace e)].

Definition target_engineer_default (reason : string) (e : exn) : pyval :=
    PDict [("角色", PStr "目标工程师");
           ("信号", PStr "中性");
           ("因果空间", PStr "¥0.00");
           ("K값", PFloat 1);
           ("目标价", PStr "¥0.00");
           ("盈亏比", PStr "0.0");
           ("可执行", PBool false);
           ("置信度", PInt 50);
           ("理由", PStr (reason +:+ exn_msg e));
           ("_debug_reasoning", debug_trace e)].

Definition strength_commander_default (reason : string) (e : exn) : pyval :=
    PDict [("角色", PStr "强度指挥官");
           ("信号", PStr "中性");
           ("相对强度RS", PFloat 0);
           ("板块同步", PBool false);
           ("资金流向", PStr "无数据");
           ("评分调整", PStr "维持");
           ("置信度", PInt 50);
           ("理由", PStr (reason +:+ exn_msg e));
           ("_debug_reasoning", debug_trace e)].

Definition analyze_failed : string := "执行分析时发生错误: ".
Definition engine_failed : string := "AI分析调用失败: ".
Definition runner_failed : string := "运行agent时发生错误: ".

Inductive role :=
  | PhaseHunter | VolumeDetective | SpringHunter | TargetEngineer
  | StrengthCommander.

(** What a role's [_build_prompt] is given. *)
Record prompt_inputs := mkInputs {
    in_code : string;
    in_info : option (gmap string string);
    in_stock : option DataFrame;
    in_fund_flow : option DataFrame;
    in_benchmark : option DataFrame;
    in_industry : option DataFrame;
    in_intraday : option DataFrame
  }.

(** [KeyError(key)]; its [str] is the [repr] of the key. *)
Definition KeyError (key : string) : exn :=
    mkExn "KeyError" ("'" +:+ key +:+ "'").

Fixpoint index_of (x : string) (l : list string) : option nat :=
    match l with
    | [] => None
    | y :: l' => if decide (x = y) then Some O else S <$> index_of x l'
    end.

(** [row[col]] *)
Definition cell (df : DataFrame) (row : list string) (col : string)
    : outcome string :=
    match index_of col (columns df) with
    | Some i => match row !! i with
                | Some v => Ret v
                | None => Raise (KeyError col)
                end
    | None => Raise (KeyError col)
    end.

(** [for _, row in df.iterrows(): stock_info[row['item']] = row['value']];
    the right-hand side of the assignment is evaluated first. *)
Fixpoint info_of_rows (df : DataFrame) (todo : list (list string))
      (stock_info : gmap string string) : outcome (gmap string string) :=
    match todo with
    | [] => Ret stock_info
    | row :: rest =>
        match cell df row "value" with
        | Raise e => Raise e
        | Ret v =>
            match cell df row "item" with
            | Raise e => Raise e
            | Ret k => info_of_rows df rest (<[k := v]> stock_info)
            end
        end
    end.

(** The conversion of the stock-info DataFrame to a dict, [None] when there
    is no DataFrame or it is empty. *)
Definition stock_info_of (stock_info_df : option DataFrame)
    : outcome (option (gmap string string)) :=
    match stock_info_df with
    | None => Ret None
    | Some df =>
        if empty df then Ret None
        else match info_of_rows df (rows df) ∅ with
             | Ret info => Ret (Some info)
             | Raise e => Raise e
             end
    end.

Definition dq : string := String (Ascii.ascii_of_nat 34) EmptyString.
Definition quoted (s : string) : string := dq +:+ s +:+ dq.

Fixpoint comma_separated (l : list string) : string :=
    match l with
    | [] => ""
    | [s] => s
    | s :: l' => s +:+ ", " +:+ comma_separated l'
    end.

(** The literal the phase hunter's [_build_prompt] returns when a dataset
    is missing. *)
Definition data_missing (what : list string) : string :=
    "{" +:+ quoted "错误" +:+ ": " +:+ quoted "数据缺失" +:+ ", " +:+
    quoted "缺失字段" +:+ ": [" +:+ comma_separated (map quoted what) +:+ "]}".

Definition lift {W A} (o : outcome A) : M W A := fun w => (o, w).

Section roles.
Context {W : Type}.

(** The data_fetcher package, as the roles import it. *)
Variable get_stock_data : string -> M W (option DataFrame).
Variable stock_individual_fund_flow : string -> M W (option DataFrame).
Variable get_stock_info : string -> M W (option DataFrame).
Variable get_index_data : string -> M W (option DataFrame).
Variable get_board_hist_data : string -> M W (option DataFrame).
Variable get_stock_intraday_data : string -> M W (option DataFrame).

(** The instruction template of each role filled in with its inputs (the
    f-string and the [to_string] calls in it). *)
Variable render : role -> prompt_inputs -> outcome string.

(** The reasoning engine, see [Engine]. *)
Variable to_json : DataFrame -> outcome string.
Variable create : Engine.request -> M W (list Stream.item).

(** [askDeepSeek(stock_df=..., stock_fund_flow_df=..., stock_code=...,
    prompt_content=...)] with its default [max_retries=5]. *)
Definition ask (stock_data fund_flow_data : option DataFrame)
        (stock_code : string) (prompt : option string) : M W string :=
      fun w =>
        let '(r, w', _) :=
          Engine.askDeepSeek to_json create stock_data fund_flow_data
            stock_code prompt 5 w in
        (r, w').

(** Every role has the same [get_market_benchmark_data]. *)
Definition get_market_benchmark_data (stock_code : string)
      : M W (option DataFrame) :=
      try_except
        (let index_code :=
           if String.prefix "6" stock_code || String.prefix "000" stock_code
           then "000300"
           else if String.prefix "3" stock_code || String.prefix "002" stock_code
           then "399006"
           else "000300" in
         get_index_data index_code)
        (fun e => ret None).

(** [get_industry_data], the same in the three roles that have it;
    [period="日k"] and [adjust=""] are fixed. An empty dict has no key, so
    [not stock_info] is the [None] case of either match. *)
Definition get_industry_data (stock_code : string)
        (stock_info : option (gmap string string)) : M W (option DataFrame) :=
      try_except
        (match stock_info with
         | None => ret None
         | Some info =>
             match info !! "行业" with
             | None => ret None
             | Some industry_name =>
                 if negb (Engine.nonempty industry_name)
                    || bool_decide (industry_name = "未知")
                 then ret None
                 else get_board_hist_data industry_name
             end
         end)
        (fun e => ret None).

(** The lines that fetch the stock info and turn it into a dict, written
    out in [analyze] by every role but the phase hunter. *)
Definition fetch_stock_info (stock_code : string)
      : M W (option (gmap string string)) :=
      (stock_info_df <~ get_stock_info stock_code ;;
       lift (stock_info_of stock_info_df))%py.

(** [_build_prompt] of every role but the phase hunter. *)
Definition _build_prompt (r : role) (inputs : prompt_inputs) : option string :=
      match render r inputs with
      | Ret prompt => Some prompt
      | Raise e => None
      end.

    (** ** PhaseHunterAgent *)

Definition phase_collect_stock_info (stock_code : string)
      : M W (option (gmap string string)) :=
      try_except (fetch_stock_info stock_code) (fun e => ret None).

Definition phase_build_prompt (inputs : prompt_inputs) : option string :=
      if missing (in_stock inputs)
      then Some (data_missing ["历史价格"; "历史成交量"])
      else if missing (in_fund_flow inputs)
      then Some (data_missing ["资金流向"])
      else if missing (in_benchmark inputs)
      then Some (data_missing ["大盘数据"])
      else _build_prompt PhaseHunter inputs.

(** The inner handler returns the default record from [analyze]; a value
    that comes out of the inner [try] is returned as it is. *)
Definition phase_analyze (stock_code : string) : M W pyval :=
      try_except
        (stock_data <~ get_stock_data stock_code ;;
         if missing stock_data then raise (ValueError "无法获取股票数据") else
         fund_flow_data <~ stock_individual_fund_flow stock_code ;;
         stock_info <~ phase_collect_stock_info stock_code ;;
         benchmark_data <~ get_market_benchmark_data stock_code ;;
         let prompt := phase_build_prompt
           (mkInputs stock_code stock_info stock_data fund_flow_data
              benchmark_data None None) in
         try_except
           (analysis_result <~ ask stock_data fund_flow_data stock_code prompt ;;
            ret (PStr analysis_result))
           (fun ai_error => ret (phase_hunter_default engine_failed ai_error)))%py
        (fun e => ret (phase_hunter_default analyze_failed e)).

Definition run_phase_hunter_agent (stock_code : string) : M W pyval :=
      try_except (phase_analyze stock_code)
        (fun e => ret (phase_hunter_default runner_failed e)).

    (** ** VolumeDetectiveAgent *)

Definition volume_analyze (stock_code : string) : M W pyval :=
      try_except
        (stock_data <~ get_stock_data stock_code ;;
         if missing stock_data then raise (ValueError "无法获取股票数据") else
         fund_flow_data <~ stock_individual_fund_flow stock_code ;;
         stock_info <~ fetch_stock_info stock_code ;;
         benchmark_data <~ get_market_benchmark_data stock_code ;;
         industry_data <~ get_industry_data stock_code stock_info ;;
         intraday_data <~ get_stock_intraday_data stock_code ;;
         let prompt := _build_prompt VolumeDetective
           (mkInputs stock_code stock_info stock_data fund_flow_data
              benchmark_data industry_data intraday_data) in
         try_except
           (analysis_result <~ ask stock_data fund_flow_data stock_code prompt ;;
            ret (PStr analysis_result))
           (fun ai_error => ret (volume_detective_default engine_failed ai_error)))%py
        (fun e => ret (volume_detective_default analyze_failed e)).

Definition run_volume_detective_agent (stock_code : string) : M W pyval :=
      try_except (volume_analyze stock_code)
        (fun e => ret (PDict [("error", PStr (exn_msg e))])).

    (** ** SpringHunterAgent: its inner handler raises the exception again. *)

Definition spring_analyze (stock_code : string) : M W pyval :=
      try_except
        (stock_data <~ get_stock_data stock_code ;;
         if missing stock_data then raise (ValueError "无法获取股票数据") else
         fund_flow_data <~ stock_individual_fund_flow stock_code ;;
         stock_info <~ fetch_stock_info stock_code ;;
         benchmark_data <~ get_market_benchmark_data stock_code ;;
         intraday_data <~ get_stock_intraday_data stock_code ;;
         let prompt := _build_prompt SpringHunter
           (mkInputs stock_code stock_info stock_data fund_flow_data
              benchmark_data None intraday_data) in
         analysis_result <~
           try_except (ask stock_data fund_flow_data stock_code prompt)
             (fun e => raise e) ;;
         ret (PStr analysis_result))%py
        (fun e => ret (spring_hunter_default analyze_failed e)).

Definition run_spring_hunter_agent (stock_code : string) : M W pyval :=
      try_except (spring_analyze stock_code)
        (fun e => ret (spring_hunter_default runner_failed e)).

    (** ** TargetEngineerAgent and StrengthCommanderAgent: no inner [try]. *)

Definition target_analyze (stock_code : string) : M W pyval :=
      try_except
        (stock_data <~ get_stock_data stock_code ;;
         if missing stock_data then raise (ValueError "无法获取股票数据") else
         fund_flow_data <~ stock_individual_fund_flow stock_code ;;
         stock_info <~ fetch_stock_info stock_code ;;
         benchmark_data <~ get_market_benchmark_data stock_code ;;
         industry_data <~ get_industry_data stock_code stock_info ;;
         let prompt := _build_prompt TargetEngineer
           (mkInputs stock_code stock_info stock_data fund_flow_data
              benchmark_data industry_data None) in
         analysis_result <~ ask stock_data fund_flow_data stock_code prompt ;;
         ret (PStr analysis_result))%py
        (fun e => ret (target_engineer_default analyze_failed e)).

Definition run_target_engineer_agent (stock_code : string) : M W pyval :=
      try_except (target_analyze stock_code)
        (fun e => ret (target_engineer_default runner_failed e)).

Definition strength_analyze (stock_code : string) : M W pyval :=
      try_except
        (stock_data <~ get_stock_data stock_code ;;
         if missing stock_data then raise (ValueError "无法获取股票数据") else
         fund_flow_data <~ stock_individual_fund_flow stock_code ;;
         stock_info <~ fetch_stock_info stock_code ;;
         benchmark_data <~ get_market_benchmark_data stock_code ;;
         industry_data <~ get_industry_data stock_code stock_info ;;
         let prompt := _build_prompt StrengthCommander
           (mkInputs stock_code stock_info stock_data fund_flow_data
              benchmark_data industry_data None) in
         analysis_result <~ ask stock_data fund_flow_data stock_code prompt ;;
         ret (PStr analysis_result))%py
        (fun e => ret (strength_commander_default analyze_failed e)).

Definition run_strength_commander_agent (stock_code : string) : M W pyval :=
      try_except (strength_analyze stock_code)
        (fun e => ret (strength_commander_default runner_failed e)).

(** ** The five roles side by side *)

Definition default_of (r : role) : string -> exn -> pyval :=
      match r with
      | PhaseHunter => phase_hunter_default
      | VolumeDetective => volume_detective_default
      | SpringHunter => spring_hunter_default
      | TargetEngineer => target_engineer_default
      | StrengthCommander => strength_commander_default
      end.

Definition analyze (r : role) : string -> M W pyval :=
      match r with
      | PhaseHunter => phase_analyze
      | VolumeDetective => volume_analyze
      | SpringHunter => spring_analyze
      | TargetEngineer => target_analyze
      | StrengthCommander => strength_analyze
      end.

Definition run_agent (r : role) : string -> M W pyval :=
      match r with
      | PhaseHunter => run_phase_hunter_agent
      | VolumeDetective => run_volume_detective_agent
      | SpringHunter => run_spring_hunter_agent
      | TargetEngineer => run_target_engineer_agent
      | StrengthCommander => run_strength_commander_agent
      end.

(** The statements of [analyze] between the fund-flow fetch and the engine
    call: the remaining fetches of the role, then its prompt. *)
Definition prepare (r : role) (stock_code : string)
        (stock_data fund_flow_data : option DataFrame) : M W (option string) :=
      match r with
      | PhaseHunter =>
          (stock_info <~ phase_collect_stock_info stock_code ;;
           benchmark_data <~ get_market_benchmark_data stock_code ;;
           ret (phase_build_prompt
                  (mkInputs stock_code stock_info stock_data fund_flow_data
                     benchmark_data None None)))%py
      | VolumeDetective =>
          (stock_info <~ fetch_stock_info stock_code ;;
           benchmark_data <~ get_market_benchmark_data stock_code ;;
           industry_data <~ get_industry_data stock_code stock_info ;;
           intraday_data <~ get_stock_intraday_data stock_code ;;
           ret (_build_prompt VolumeDetective
                  (mkInputs stock_code stock_info stock_data fund_flow_data
                     benchmark_data industry_data intraday_data)))%py
      | SpringHunter =>
          (stock_info <~ fetch_stock_info stock_code ;;
           benchmark_data <~ get_market_benchmark_data stock_code ;;
           intraday_data <~ get_stock_intraday_data stock_code ;;
           ret (_build_prompt SpringHunter
                  (mkInputs stock_code stock_info stock_data fund_flow_data
                     benchmark_data None intraday_data)))%py
      | TargetEngineer =>
          (stock_info <~ fetch_stock_info stock_code ;;
           benchmark_data <~ get_market_benchmark_data stock_code ;;
           industry_data <~ get_industry_data stock_code stock_info ;;
           ret (_build_prompt TargetEngineer
                  (mkInputs stock_code stock_info stock_data fund_flow_data
                     benchmark_data industry_data None)))%py
      | StrengthCommander =>
          (stock_info <~ fetch_stock_info stock_code ;;
           benchmark_data <~ get_market_benchmark_data stock_code ;;
           industry_data <~ get_industry_data stock_code stock_info ;;
           ret (_build_prompt StrengthCommander
                  (mkInputs stock_code stock_info stock_data fund_flow_data
                     benchmark_data industry_data None)))%py
      end.

(** The text the default record carries when the engine call raises: the
    phase hunter and the volume detective catch it in a handler of their
    own around the call; the spring hunter's handler raises it again and
    the other two have none, so there the handler of the whole method
    writes the record. *)
Definition engine_reason (r : role) : string :=
      match r with
      | PhaseHunter | VolumeDetective => engine_failed
      | SpringHunter | TargetEngineer | StrengthCommander => analyze_failed
      end.

End roles.

(** The field names of each role's record as its instruction template gives
    them under "最终输出格式（严格JSON Schema）". *)
Definition schema (r : role) : list string :=
    match r with
    | PhaseHunter =>
        ["角色"; "信号"; "阶段评分"; "关键结构"; "大盘影响"; "止损位"; "置信度";
         "理由"; "_debug_reasoning"]
    | VolumeDetective =>
        ["角色"; "信号"; "努力结果比率"; "异常行为"; "机构验证"; "风险警告";
         "置信度"; "理由"; "_debug_reasoning"]
    | SpringHunter =>
        ["角色"; "信号"; "关键事件"; "事件验证"; "失败风险"; "置信度"; "理由";
         "_debug_reasoning"]
    | TargetEngineer =>
        ["角色"; "信号"; "因果空间"; "K值"; "目标价"; "盈亏比"; "可执行";
         "置信度"; "理由"; "_debug_reasoning"]
    | StrengthCommander =>
        ["角色"; "信号"; "相对强度RS"; "板块同步"; "资金流向"; "评分调整";
         "置信度"; "理由"; "_debug_reasoning"]
    end.

End Agent.

(* ===================================================================== *)
(** * wyckoff_multi_agent_analysis.py                                     *)
(* ===================================================================== *)

Module Orchestrator.

Import Agent.

Section orchestrator.
Context {W : Type}.

(** The six names imported from the [agent] package. The chief strategist
    is the aggregator. *)
Variable run_phase_hunter_agent : string -> M W pyval.
Variable run_volume_detective_agent : string -> M W pyval.
Variable run_spring_hunter_agent : string -> M W pyval.
Variable run_target_engineer_agent : string -> M W pyval.
Variable run_strength_commander_agent : string -> M W pyval.
Variable run_chief_strategist_agent : list pyval -> M W pyval.

(** [json.dumps(v, ensure_ascii=False, indent=2)], whose result is only
    printed, and [datetime.now().strftime('%Y-%m-%d %H:%M:%S')]. *)
Variable json_dumps : pyval -> outcome string.
Variable timestamp : W -> string.

(** The locals of the function that change, with the world; and, for
    observation only, the arguments of each call made to the
    aggregator. *)
Record frame := mkFrame {
      world : W;
      expert_reports : list pyval;
      aggregator_calls : list (list pyval)
    }.

Definition call {A} (m : M W A) : M frame A :=
      fun f =>
        let '(r, w') := m (world f) in
        (r, mkFrame w' (expert_reports f) (aggregator_calls f)).

(** [expert_reports.append(result)] *)
Definition append (result : pyval) : M frame unit :=
      fun f =>
        (Ret tt, mkFrame (world f) (expert_reports f ++ [result])
                   (aggregator_calls f)).

(** [print(json.dumps(v, ...))] *)
Definition print_json (v : pyval) : M frame unit :=
      fun f =>
        match json_dumps v with
        | Ret _ => (Ret tt, f)
        | Raise e => (Raise e, f)
        end.

(** One of the five numbered blocks: the handler only prints. *)
Definition expert (runner : string -> M W pyval) (stock_code : string)
      : M frame unit :=
      try_except
        (result <~ call (runner stock_code) ;;
         _ <~ append result ;;
         print_json result)%py
        (fun e => ret tt).

Definition aggregate : M frame pyval :=
      fun f =>
        let reports := expert_reports f in
        let '(r, w') := run_chief_strategist_agent reports (world f) in
        (r, mkFrame w' reports (aggregator_calls f ++ [reports])).

(** Block 6: the handler sets the result to [{}]. *)
Definition chief_strategist : M frame pyval :=
      try_except
        (chief_strategist_result <~ aggregate ;;
         _ <~ print_json chief_strategist_result ;;
         ret chief_strategist_result)%py
        (fun e => ret (PDict [])).

(** The whole function up to the returned dict; writing the result file
    (whose failure is caught and printed) is left out. *)
Definition run_wyckoff_multi_agent_analysis (stock_code : string)
      : M frame pyval :=
      (_ <~ expert run_phase_hunter_agent stock_code ;;
       _ <~ expert run_volume_detective_agent stock_code ;;
       _ <~ expert run_spring_hunter_agent stock_code ;;
       _ <~ expert run_target_engineer_agent stock_code ;;
       _ <~ expert run_strength_commander_agent stock_code ;;
       chief_strategist_result <~ chief_strategist ;;
       fun f =>
         (Ret (PDict [("股票代码", PStr stock_code);
                      ("分析时间", PStr (timestamp (world f)));
                      ("专家分析报告", PList (expert_reports f));
                      ("综合策略", chief_strategist_result)]), f))%py.

(** A fresh call: [expert_reports = []]. *)
Definition enter (w : W) : frame := mkFrame w [] [].

(** ** The roles in their declared order, and what each runner does when
    run in turn (no handler, nothing dropped). *)
Definition declared_roles : list (string -> M W pyval) :=
      [run_phase_hunter_agent; run_volume_detective_agent;
       run_spring_hunter_agent; run_target_engineer_agent;
       run_strength_commander_agent].

Fixpoint runner_outcomes (runners : list (string -> M W pyval))
        (stock_code : string) (w : W) : list (outcome pyval) * W :=
      match runners with
      | [] => ([], w)
      | runner :: rest =>
          let '(o, w') := runner stock_code w in
          let '(os, w'') := runner_outcomes rest stock_code w' in
          (o :: os, w'')
      end.

Definition returned {A} (o : outcome A) : option A :=
      match o with
      | Ret a => Some a
      | Raise _ => None
      end.

End orchestrator.

End Orchestrator.

(* ===================================================================== *)
(** * data_fetcher/market_type.py, data_fetcher/stock_code_converter.py    *)
(* ===================================================================== *)

Module Codes.

(** [s.startswith((p1, p2, ...))] *)
Definition startswith (prefixes : list string) (s : string) : bool :=
existsb (fun p => String.prefix p s) prefixes.

(** [MarketType.get_market]; the error that is logged is left out. *)
Definition get_market (symbol : string) : option string :=
if startswith ["6"; "5"; "9"] symbol then Some "sh"
else if startswith ["0"; "1"; "2"; "3"] symbol then Some "sz"
else None.

Section convert.

(** [c.isspace()] and [c.isdigit()] for one character. In this module a
    string is a sequence of characters. *)
Variables (isspace isdigit : Ascii.ascii -> bool).

Fixpoint lstrip (s : string) : string :=
  match s with
  | EmptyString => EmptyString
  | String c rest => if isspace c then lstrip rest else s
  end.

Fixpoint rstrip (s : string) : string :=
  match s with
  | EmptyString => EmptyString
  | String c rest =>
      match rstrip rest with
      | EmptyString => if isspace c then EmptyString else String c EmptyString
      | kept => String c kept
      end
  end.

(** [s.strip()] *)
Definition strip (s : string) : string := rstrip (lstrip s).

Fixpoint all_chars (p : Ascii.ascii -> bool) (s : string) : bool :=
  match s with
  | EmptyString => true
  | String c rest => p c && all_chars p rest
  end.

(** [s.isdigit()]: at least one character, and all of them digits. *)
Definition str_isdigit (s : string) : bool :=
  Engine.nonempty s && all_chars isdigit s.

(** The code once stripped and without its ["sh"] or ["sz"]. *)
Definition bare (code : string) : string :=
  let code := strip code in
  if startswith ["sh"; "sz"] code
  then String.substring 2 (String.length code - 2) code
  else code.

(** [StockCodeConverter.convert] *)
Definition convert (code : string) : outcome string :=
  let code := bare code in
  if negb (str_isdigit code && (String.length code =? 6)%nat)
  then Raise (ValueError "股票代码必须是6位数字")
  else if startswith ["6"; "5"; "9"] code then Ret ("sh" +:+ code)
  else if startswith ["0"; "1"; "2"; "3"] code then Ret ("sz" +:+ code)
  else Raise (ValueError ("无法识别的股票代码格式: " +:+ code)).

End convert.

(** The classification of the ASCII characters. *)
Definition ascii_isspace (c : Ascii.ascii) : bool :=
let n := Ascii.nat_of_ascii c in
((9 <=? n) && (n <=? 13) || (28 <=? n) && (n <=? 32))%nat.

Definition ascii_isdigit (c : Ascii.ascii) : bool :=
let n := Ascii.nat_of_ascii c in
((48 <=? n) && (n <=? 57))%nat.

End Codes.

(* ===================================================================== *)
(** * data_fetcher/index_data_fetcher.py: [IndexDataFetcher.get_index_data] *)
(* ===================================================================== *)

Module Index.

Section index.
Context {E : Type}.

(** [ak.stock_zh_index_daily(symbol=...)], which may give [None]. *)
Variable stock_zh_index_daily : string -> M E (option DataFrame).

(** The provider, and the symbols it has been asked for. *)
Record state := mkState { provider : E; requests : list string }.

Definition request (symbol : string) : M state (option DataFrame) :=
  fun s =>
    let '(r, e') := stock_zh_index_daily symbol (provider s) in
    (r, mkState e' (requests s ++ [symbol])).

(** The undecorated method body. *)
Definition get_index_data_body (symbol : string) : M state (option DataFrame) :=
  try_except
    (let symbol :=
       if String.prefix "0" symbol then "sh" +:+ symbol
       else if String.prefix "3" symbol then "sz" +:+ symbol
       else symbol in
     df <~ request symbol ;;
     if missing df then ret None else ret df)%py
    (fun e => ret None).

(** [@retry(max_retries=3, retry_delay=1)] applied to the body, as a role
    calls it. *)
Definition get_index_data (symbol : string) : M state (option DataFrame) :=
  fun s =>
    let '(r, s', _) := Retry.wrapper 3 1 (get_index_data_body symbol) s in
    (Ret (mjoin r), s').

End index.

End Index.

(* ===================================================================== *)
(** * data_fetcher/fund_flow_fetcher.py, data_fetcher/data_fetcher.py:
      [FundFlowFetcher]                                                   *)
(* ===================================================================== *)

Module FundFlow.

Import Cache.

Section fund_flow.
Context {E : Type}.

(** [ak.stock_individual_fund_flow(stock=..., market=...)] *)
Variable ak_fund_flow : string -> string -> M E (option DataFrame).

(** [df['日期'] = pd.to_datetime(df['日期'])] *)
Variable to_datetime : DataFrame -> outcome DataFrame.

(** [datetime.strptime(s, "%Y%m%d")] as a day number, and
    [strftime("%Y%m%d")] of a timestamp. *)
Variable strptime : string -> outcome Z.
Variable strftime : Q -> string.

(** The pandas part of [_filter_data_by_date_range]: a copy with the date
    column converted, the rows between the two dates, newest first. *)
Variable select_dates : DataFrame -> Z -> Z -> outcome DataFrame.

(** What can go wrong when the cache file is written, see [Cache]. *)
Variable open_error : string -> world -> option exn.
Variable dump_error : DataFrame -> world -> option exn.

(** The cache directory with the clock, the provider, and the requests made
    to the provider. *)
Record state := mkState {
  disk : world;
  provider : E;
  requests : list (string * string)
}.

Definition on_disk {A} (m : M world A) : M state A :=
  fun s =>
    let '(r, d') := m (disk s) in
    (r, mkState d' (provider s) (requests s)).

Definition request (symbol market : string) : M state (option DataFrame) :=
  fun s =>
    let '(r, e') := ak_fund_flow symbol market (provider s) in
    (r, mkState (disk s) e' (requests s ++ [(symbol, market)])).

Definition pure {A} (o : outcome A) : M state A := fun s => (o, s).

(** [DateUtils.get_date_range(half_year)]: (start_date, end_date) *)
Definition get_date_range (half_year : Z) (d : world) : string * string :=
  (strftime (now d - inject_Z (half_year * 86400))%Q, strftime (now d)).

(** [if date_range is None: date_range = DateUtils.get_date_range(183)] *)
Definition resolve (date_range : option (string * string)) (d : world)
  : string * string :=
  match date_range with
  | Some given => given
  | None => get_date_range 183 d
  end.

(** [_filter_data_by_date_range] *)
Definition _filter_data_by_date_range (df : DataFrame)
    (date_range : string * string) : outcome DataFrame :=
  match strptime (fst date_range) with
  | Raise e => Raise e
  | Ret start_date =>
      match strptime (snd date_range) with
      | Raise e => Raise e
      | Ret end_date => select_dates df start_date end_date
      end
  end.

(** The undecorated method body; [date_range] is [None] or a dict with both
    dates. *)
Definition stock_individual_fund_flow_body (symbol : string)
    (date_range : option (string * string)) : M state (option DataFrame) :=
  (date_range <~ (fun s => (Ret (resolve date_range (disk s)), s)) ;;
   start_date <~ pure (strptime (fst date_range)) ;;
   end_date <~ pure (strptime (snd date_range)) ;;
   cached_data <~ on_disk (load_cache symbol "fund_flow" 24) ;;
   match cached_data with
   | Some cached =>
       filtered <~ pure (_filter_data_by_date_range cached date_range) ;;
       ret (Some filtered)
   | None =>
       match Codes.get_market symbol with
       | None => ret None
       | Some market =>
           try_except
             (df <~ request symbol market ;;
              match df with
              | None => ret None
              | Some df =>
                  if empty df then ret None
                  else if bool_decide ("日期" ∈ columns df)
                  then (df <~ pure (to_datetime df) ;;
                        _ <~ on_disk (save_cache open_error dump_error df
                                        symbol "fund_flow") ;;
                        filtered_data <~
                          pure (_filter_data_by_date_range df date_range) ;;
                        ret (Some filtered_data))
                  else ret None
              end)
             (fun e => ret None)
       end
   end)%py.

(** [@retry(max_retries=3, retry_delay=1)] applied to the body; what
    the caller gets, the state left, and the calls and sleeps made. *)
Definition stock_individual_fund_flow (symbol : string)
    (date_range : option (string * string)) (s : state)
  : option DataFrame * state * list Retry.event :=
  let '(r, s', tr) :=
    Retry.wrapper 3 1 (stock_individual_fund_flow_body symbol date_range) s in
  (mjoin r, s', tr).

End fund_flow.

End FundFlow.

(* ===================================================================== *)
(** * Vocabulary of the specification for chunk streams                    *)
(* ===================================================================== *)

Module StreamSpec.

Import Stream.

(** The first choice of a chunk when it has one with a delta: the only part
    of a chunk the assembler looks at. *)
Definition effective (it : item) : option (choice * delta) :=
match it with
| Chunk c =>
    match choices c with
    | first_choice :: _ =>
        match choice_delta first_choice with
        | Some d => Some (first_choice, d)
        | None => None
        end
    | [] => None
    end
| Broken _ => None
end.

(** The content fragment a chunk carries. *)
Definition fragment_of (it : item) : option string :=
match effective it with
| Some (_, d) => content d
| None => None
end.

(** The chunk carries the finish signal. *)
Definition stops (it : item) : bool :=
match effective it with
| Some (first_choice, _) => bool_decide (finish_reason first_choice = Some "stop")
| None => false
end.

Definition breaks (it : item) : bool :=
match it with
| Broken _ => true
| Chunk _ => false
end.

(** The stream goes on after this item. *)
Definition passes (it : item) : bool := negb (stops it) && negb (breaks it).

(** Concatenation in stream order. *)
Definition concat_fragments (l : list string) : string :=
fold_left String.append l "".

(** The same chunk with every reasoning fragment replaced. *)
Definition map_reasoning (f : option string -> option string) (it : item) : item :=
match it with
| Chunk c =>
    Chunk (mkChunk
      (map (fun ch =>
              mkChoice
                ((fun d => mkDelta (f (reasoning_content d)) (content d))
                   <$> choice_delta ch)
                (finish_reason ch))
           (choices c)))
| Broken e => Broken e
end.

End StreamSpec.

(* ===================================================================== *)
(** * Concrete inputs used to exercise the definitions                     *)
(* ===================================================================== *)

Module Scenario.

Import Retry.

Definition timeout_error : exn := mkExn "ConnectionError" "timed out".

(** A wrapped operation that raises on every call; the world counts the
    calls. *)
Definition always_failing : M nat string :=
fun n => (Raise timeout_error, S n).

(** A wrapped operation that raises on its first call only. *)
Definition fails_once : M nat string :=
fun n => match n with
         | O => (Raise timeout_error, 1%nat)
         | S _ => (Ret "dataset", S n)
         end.

(** Chunks of the reasoning engine's stream. *)
Definition content_chunk (s : string) : Stream.item :=
Stream.Chunk (Stream.mkChunk
  [Stream.mkChoice (Some (Stream.mkDelta None (Some s))) None]).

Definition reasoning_chunk (s : string) : Stream.item :=
Stream.Chunk (Stream.mkChunk
  [Stream.mkChoice (Some (Stream.mkDelta (Some s) None)) None]).

Definition finish_chunk : Stream.item :=
Stream.Chunk (Stream.mkChunk
  [Stream.mkChoice (Some (Stream.mkDelta None None)) (Some "stop")]).

(** A small dataset and a cache directory holding it, written at time 0. *)
Definition dataset : DataFrame :=
mkDF ["日期"; "收盘"] [["2025-09-01"; "198.5"]; ["2025-09-02"; "200.0"]].

Definition cache_at (clock : Q) (b : Cache.blob) : Cache.world :=
Cache.mkWorld clock
  {[ Cache.get_cache_path "300750" "fund_flow" := Cache.mkFile 0 b ]}.

Definition pickle_error : exn := mkExn "UnpicklingError" "pickle data was truncated".

(** ** Reasoning engines; the world counts the requests made. *)

Definition to_json (df : DataFrame) : outcome string := Ret "[]".

(** The transport fails on the even requests and the stream ends without a
    finish chunk on the odd ones. *)
Definition engine_down (req : Engine.request) : M nat (list Stream.item) :=
fun n => if Nat.even n
         then (Raise timeout_error, S n)
         else (Ret [content_chunk "partial"], S n).

(** Every request is answered by a complete reply. *)
Definition engine_up (reply : string) (req : Engine.request)
  : M nat (list Stream.item) :=
fun n => (Ret [content_chunk reply; finish_chunk], S n).

(** ** Data fetchers: the primary dataset is there or not; no auxiliary
    dataset is. *)

Definition have_data (stock_code : string) : M nat (option DataFrame) :=
ret (Some dataset).

Definition no_data (stock_code : string) : M nat (option DataFrame) :=
ret None.

Definition render (r : Agent.role) (inputs : Agent.prompt_inputs)
  : outcome string := Ret "instructions".

(** ** Runners and an aggregator for the orchestrator. *)

Definition crashing_runner (stock_code : string) : M nat Agent.pyval :=
raise (mkExn "RuntimeError" "role crashed").

Definition report (name : string) : Agent.pyval :=
Agent.PDict [("角色", Agent.PStr name); ("信号", Agent.PStr "看涨")].

Definition reporting_runner (name : string) (stock_code : string)
  : M nat Agent.pyval :=
ret (report name).

Definition aggregator (reports : list Agent.pyval) : M nat Agent.pyval :=
ret (Agent.PDict [("综合信号", Agent.PStr "中性")]).

Definition json_dumps (v : Agent.pyval) : outcome string := Ret "{}".

Definition timestamp (w : nat) : string := "2026-01-05 09:30:00".

(** A batch in which the spring hunter's runner raises. *)
Definition batch_with_crash : M (Orchestrator.frame (W := nat)) Agent.pyval :=
Orchestrator.run_wyckoff_multi_agent_analysis
  (reporting_runner "阶段猎手") (reporting_runner "量能侦探")
  crashing_runner
  (reporting_runner "目标工程师") (reporting_runner "强度指挥官")
  aggregator json_dumps timestamp "300750".

(** ** A market-data provider whose state is the day number. *)

Definition provider (symbol start_date end_date : string) : M Z DataFrame :=
fun day => (Ret dataset, day).

Definition today (day : Z) : Z := day.

Definition strftime (day : Z) : string :=
if day <? 20000 then "20240101" else "20260105".

Definition fresh : Fetcher.state :=
Fetcher.mkState ∅ [] 20458 0.

(** A role run with the given primary fetcher and engine. *)
Definition analyze_with (primary : string -> M nat (option DataFrame))
    (engine : Engine.request -> M nat (list Stream.item)) (r : Agent.role)
  : string -> M nat Agent.pyval :=
Agent.analyze primary no_data no_data no_data no_data no_data render
  to_json engine r.

End Scenario.

(* ===================================================================== *)
(** * More concrete inputs                                                 *)
(* ===================================================================== *)

Module Cases.

(** A provider that is down, and one that has no rows for the symbol. *)
Definition provider_down (symbol start_date end_date : string) : M Z DataFrame :=
fun day => (Raise Scenario.timeout_error, day).

Definition provider_empty (symbol start_date end_date : string) : M Z DataFrame :=
fun day => (Ret (mkDF [] []), day).

(** A stock-info fetch that raises. *)
Definition info_down (stock_code : string) : M nat (option DataFrame) :=
raise Scenario.timeout_error.

(** A role run in which only the stock-info fetch fails. *)
Definition analyze_without_info (engine : Engine.request -> M nat (list Stream.item))
    (r : Agent.role) : string -> M nat Agent.pyval :=
Agent.analyze Scenario.have_data Scenario.no_data info_down Scenario.no_data
  Scenario.no_data Scenario.no_data Scenario.render Scenario.to_json engine r.

(** An aggregator that raises, and an index provider that answers. *)
Definition aggregator_down (reports : list Agent.pyval) : M nat Agent.pyval :=
raise Scenario.timeout_error.

Definition index_provider (symbol : string) : M nat (option DataFrame) :=
fun n => (Ret (Some Scenario.dataset), S n).

(** A fund-flow provider that answers with the dataset, one that is down,
    and the pandas and date functions around them. *)
Definition flow_provider (symbol market : string) : M nat (option DataFrame) :=
fun n => (Ret (Some Scenario.dataset), S n).

Definition flow_provider_down (symbol market : string) : M nat (option DataFrame) :=
fun n => (Raise Scenario.timeout_error, S n).

Definition to_datetime (df : DataFrame) : outcome DataFrame := Ret df.

Definition strptime (s : string) : outcome Z :=
if String.eqb s "20250701" then Ret 20270
else if String.eqb s "20251231" then Ret 20453
else Raise (ValueError "time data does not match format").

Definition strftime (t : Q) : string := "20251231".

(** The day number of a cell of the date column. *)
Definition day_of (cell : string) : Z :=
if String.eqb cell "2025-09-01" then 20332
else if String.eqb cell "2025-09-02" then 20333
else 0.

Definition row_day (row : list string) : Z :=
match row with
| cell :: _ => day_of cell
| [] => 0
end.

Fixpoint insert_newest_first (row : list string) (sorted : list (list string))
  : list (list string) :=
match sorted with
| [] => [row]
| r :: rest =>
    if row_day r <=? row_day row then row :: sorted
    else r :: insert_newest_first row rest
end.

(** The rows between the two dates, newest first. *)
Definition select_dates (df : DataFrame) (start_date end_date : Z)
  : outcome DataFrame :=
Ret (mkDF (columns df)
       (foldr insert_newest_first []
          (List.filter
             (fun row => (start_date <=? row_day row) && (row_day row <=? end_date))
             (rows df)))).

(** A disk on which every write goes through, and one on which no file can
    be opened for writing. *)
Definition disk_open (cache_path : string) (w : Cache.world) : option exn := None.
Definition disk_dump (data : DataFrame) (w : Cache.world) : option exn := None.
Definition disk_closed (cache_path : string) (w : Cache.world) : option exn :=
Some (mkExn "PermissionError" "Permission denied").

(** A disk on which a file can be opened and nothing written to it. *)
Definition disk_full (data : DataFrame) (w : Cache.world) : option exn :=
Some (mkExn "OSError" "No space left on device").

(** A disk that cannot be written before time 105. *)
Definition disk_opens_later (cache_path : string) (w : Cache.world) : option exn :=
if Qle_bool 105 (Cache.now w) then None
else Some (mkExn "PermissionError" "Permission denied").

Definition half_year : option (string * string) := Some ("20250701", "20251231").

Definition flow_start : FundFlow.state (E := nat) :=
FundFlow.mkState (Cache.mkWorld 100 ∅) 0%nat [].

Definition flow_cached : FundFlow.state (E := nat) :=
FundFlow.mkState (Scenario.cache_at 3600 (Cache.Pickled Scenario.dataset)) 0%nat [].

End Cases.

(* ===================================================================== *)
(** * The retry wrapper                                                    *)
(* ===================================================================== *)

Section retry_facts.
Context {W A : Type}.
Implicit Types (func : M W A) (w : W).

Import Retry.

(** A wrapped function that returns is called once. *)
Lemma attempts_returns max_retries retry_delay func attempt rest w v w' :
  func w = (Ret v, w') ->
  attempts max_retries retry_delay func (attempt :: rest) w
  = (Some v, w', [EvCall attempt]).
Proof. intros Hf. simpl. rewrite Hf. reflexivity. Qed.

(** A raise before the last index sleeps and goes on with the next index. *)
Lemma attempts_raises_early max_retries retry_delay func attempt rest w e w' :
  func w = (Raise e, w') ->
  attempt < max_retries - 1 ->
  attempts max_retries retry_delay func (attempt :: rest) w
  = let '(r, w'', tr) := attempts max_retries retry_delay func rest w' in
    (r, w'', EvCall attempt :: EvSleep retry_delay :: tr).
Proof.
  intros Hf Hlt. simpl. rewrite Hf.
  destruct (Z.ltb_spec attempt (max_retries - 1)); [reflexivity | lia].
Qed.

(** A raise at the last index gives [None] at once, without a sleep. *)
Lemma attempts_raises_last max_retries retry_delay func attempt rest w e w' :
  func w = (Raise e, w') ->
  max_retries - 1 <= attempt ->
  attempts max_retries retry_delay func (attempt :: rest) w
  = (None, w', [EvCall attempt]).
Proof.
  intros Hf Hge. simpl. rewrite Hf.
  destruct (Z.ltb_spec attempt (max_retries - 1)); [lia | reflexivity].
Qed.

(** The loop over the indices [first, first + 1, ..., max_retries - 1] calls
    the wrapped function at most once per index, and what it does last is a
    call, never a sleep. *)
Lemma attempts_bounded max_retries retry_delay func (first count : nat) w :
  Z.of_nat (first + count) = max_retries ->
  let '(_, _, tr) :=
    attempts max_retries retry_delay func (map Z.of_nat (seq first count)) w in
  (calls tr <= count)%nat
  /\ ((count = 0%nat /\ tr = []) \/ exists tr' k, tr = (tr' ++ [EvCall k])%list).
Proof.
  revert first w. induction count as [|count IH]; intros first w Hsum; simpl.
  - split; [reflexivity | by left].
  - destruct (func w) as [[v|e] w'].
    + split; [unfold calls; simpl; lia | right; by exists [], (Z.of_nat first)].
    + destruct (Z.ltb_spec (Z.of_nat first) (max_retries - 1)) as [Hlt | Hge].
      * specialize (IH (S first) w' ltac:(lia)).
        destruct (attempts max_retries retry_delay func
                    (map Z.of_nat (seq (S first) count)) w') as [[r w''] tr].
        destruct IH as [IH1 IH2]. split; [unfold calls in *; simpl; lia |].
        right. destruct IH2 as [[-> _] | (tr' & k & ->)]; [lia |].
        by exists (EvCall (Z.of_nat first) :: EvSleep retry_delay :: tr'), k.
      * split; [unfold calls; simpl; lia | right; by exists [], (Z.of_nat first)].
Qed.

(** X1: RetryPolicy invariant: at most [max_retries] calls, and no sleep after
    the final attempt. *)
Lemma wrapper_bounded max_retries retry_delay func w :
  let '(_, _, tr) := wrapper max_retries retry_delay func w in
  (calls tr <= Z.to_nat max_retries)%nat
  /\ (tr = [] \/ exists tr' k, tr = (tr' ++ [EvCall k])%list).
Proof.
  unfold wrapper, range.
  destruct (Z.le_gt_cases max_retries 0) as [Hle | Hgt].
  - replace (Z.to_nat max_retries) with 0%nat by lia. simpl.
    split; [reflexivity | by left].
  - pose proof (attempts_bounded max_retries retry_delay func 0
                  (Z.to_nat max_retries) w ltac:(lia)) as H.
    destruct (attempts max_retries retry_delay func
                (map Z.of_nat (seq 0 (Z.to_nat max_retries))) w) as [[r w'] tr].
    destruct H as [H1 H2]. split; [exact H1 |].
    destruct H2 as [[_ ->] | H2]; [by left | by right].
Qed.

(** C3: an operation that raises on every call is invoked exactly three times
    by the wrapper configured with [max_retries=3]: the world is left as
    three calls of the operation in a row leave it, the calls are those of
    the indices 0, 1 and 2 with a sleep after the first two, and the wrapper
    then returns [None] and raises nothing. *)
Theorem retry_always_failing_three_calls retry_delay func w :
  (forall w0, exists e, fst (func w0) = Raise e) ->
  wrapper 3 retry_delay func w
  = (None, snd (func (snd (func (snd (func w))))),
     [EvCall 0; EvSleep retry_delay; EvCall 1; EvSleep retry_delay; EvCall 2])
  /\ calls [EvCall 0; EvSleep retry_delay; EvCall 1; EvSleep retry_delay;
            EvCall 2] = 3%nat.
Proof.
  intros Hfail. split; [|reflexivity]. unfold wrapper.
  change (range 3) with [0; 1; 2].
  destruct (Hfail w) as [e1 H1]. destruct (func w) as [o1 w1] eqn:E1.
  simpl in H1; subst o1.
  destruct (Hfail w1) as [e2 H2]. destruct (func w1) as [o2 w2] eqn:E2.
  simpl in H2; subst o2.
  destruct (Hfail w2) as [e3 H3]. destruct (func w2) as [o3 w3] eqn:E3.
  simpl in H3; subst o3.
  erewrite attempts_raises_early by (eassumption || lia).
  erewrite attempts_raises_early by (eassumption || lia).
  erewrite attempts_raises_last by (eassumption || lia).
  cbn [snd]. rewrite E2. cbn [snd]. by rewrite E3.
Qed.

(** C7: an operation that raises on its first call and returns on its second
    is invoked exactly twice by the wrapper configured with [max_retries=3];
    the wrapper sleeps once, between the two calls, and returns what the
    second call returned. *)
Theorem retry_second_attempt_succeeds retry_delay func w e w1 v w2 :
  func w = (Raise e, w1) ->
  func w1 = (Ret v, w2) ->
  wrapper 3 retry_delay func w
  = (Some v, w2, [EvCall 0; EvSleep retry_delay; EvCall 1])
  /\ calls [EvCall 0; EvSleep retry_delay; EvCall 1] = 2%nat
  /\ sleeps [EvCall 0; EvSleep retry_delay; EvCall 1] = 1%nat.
Proof.
  intros H1 H2. unfold wrapper.
  change (range 3) with [0; 1; 2].
  erewrite attempts_raises_early by (eassumption || lia).
  erewrite attempts_returns by eassumption.
  repeat split.
Qed.

End retry_facts.

Lemma retry_always_failing_witness :
  Retry.wrapper 3 1 Scenario.always_failing 0%nat
  = (None, 3%nat,
     [Retry.EvCall 0; Retry.EvSleep 1; Retry.EvCall 1; Retry.EvSleep 1;
      Retry.EvCall 2])
  /\ Retry.calls [Retry.EvCall 0; Retry.EvSleep 1; Retry.EvCall 1;
                  Retry.EvSleep 1; Retry.EvCall 2] = 3%nat.
Proof.
  apply (retry_always_failing_three_calls 1 Scenario.always_failing 0%nat).
  intros w0. exists Scenario.timeout_error. reflexivity.
Defined.

Lemma retry_second_attempt_witness :
  Retry.wrapper 3 1 Scenario.fails_once 0%nat
  = (Some "dataset", 2%nat,
     [Retry.EvCall 0; Retry.EvSleep 1; Retry.EvCall 1])
  /\ Retry.calls [Retry.EvCall 0; Retry.EvSleep 1; Retry.EvCall 1] = 2%nat
  /\ Retry.sleeps [Retry.EvCall 0; Retry.EvSleep 1; Retry.EvCall 1] = 1%nat.
Proof.
  apply (retry_second_attempt_succeeds 1 Scenario.fails_once 0%nat
           Scenario.timeout_error 1%nat "dataset" 2%nat); reflexivity.
Defined.

(* ===================================================================== *)
(** * The cache                                                            *)
(* ===================================================================== *)

Section cache_facts.
Import Cache.
Implicit Types (w : world) (f : file) (df : DataFrame).

Lemma Qgtb_true a b : Qgtb a b = true <-> (b < a)%Q.
Proof.
  unfold Qgtb. rewrite negb_true_iff, <- not_true_iff_false, Qle_bool_iff.
  split; [apply Qnot_le_lt | apply Qlt_not_le].
Qed.

Lemma Qgtb_false a b : Qgtb a b = false <-> (a <= b)%Q.
Proof. unfold Qgtb. rewrite negb_false_iff. apply Qle_bool_iff. Qed.

(** A readable entry that is not older than the expiry time is served, and
    the store is left as it is. *)
Lemma load_cache_served w symbol data_type expiry_hours f df :
  files w !! get_cache_path symbol data_type = Some f ->
  content f = Pickled df ->
  (now w - st_mtime f <= inject_Z (expiry_hours * 3600))%Q ->
  load_cache symbol data_type expiry_hours w = (Ret (Some df), w).
Proof.
  intros Hf Hc Hage. unfold load_cache. rewrite Hf.
  apply Qgtb_false in Hage. rewrite Hage.
  unfold try_except, bind, pickle_load. rewrite Hc. reflexivity.
Qed.

(** An entry older than the expiry time is a miss and its file is removed,
    whatever it holds. *)
Lemma load_cache_expired w symbol data_type expiry_hours f :
  files w !! get_cache_path symbol data_type = Some f ->
  (inject_Z (expiry_hours * 3600) < now w - st_mtime f)%Q ->
  load_cache symbol data_type expiry_hours w
  = (Ret None,
     set_files (delete (get_cache_path symbol data_type) (files w)) w).
Proof.
  intros Hf Hage. unfold load_cache. rewrite Hf.
  apply Qgtb_true in Hage. rewrite Hage. reflexivity.
Qed.

(** [load_cache] raises nothing, whatever the store holds. *)
Lemma load_cache_never_raises w symbol data_type expiry_hours :
  exists r, fst (load_cache symbol data_type expiry_hours w) = Ret r.
Proof.
  unfold load_cache.
  destruct (files w !! get_cache_path symbol data_type) as [f|]; [|by eexists].
  destruct (Qgtb _ _); [by eexists |].
  unfold try_except, bind, pickle_load.
  destruct (content f); by eexists.
Qed.

(** C4, as the code has it: an entry stored under a key is served unchanged
    by a read at age [<= TTL], and a read at age [> TTL] is a miss that
    removes the entry. *)
Theorem cache_ttl w symbol data_type expiry_hours f df :
  files w !! get_cache_path symbol data_type = Some f ->
  content f = Pickled df ->
  ((now w - st_mtime f <= inject_Z (expiry_hours * 3600))%Q ->
   load_cache symbol data_type expiry_hours w = (Ret (Some df), w))
  /\ ((inject_Z (expiry_hours * 3600) < now w - st_mtime f)%Q ->
      load_cache symbol data_type expiry_hours w
      = (Ret None,
         set_files (delete (get_cache_path symbol data_type) (files w)) w)
      /\ files (snd (load_cache symbol data_type expiry_hours w))
           !! get_cache_path symbol data_type = None).
Proof.
  intros Hf Hc. split; intros Hage.
  - by eapply load_cache_served.
  - erewrite load_cache_expired by eassumption. split; [reflexivity |].
    simpl. apply lookup_delete_eq.
Qed.

(** A write that goes through leaves the pickle under the key, stamped with
    the time of the write, and nothing else changed. *)
Lemma save_cache_written open_error dump_error w data symbol data_type :
  writes open_error dump_error data symbol data_type w ->
  save_cache open_error dump_error data symbol data_type w
  = (Ret tt,
     set_files (<[get_cache_path symbol data_type
                  := mkFile (now w) (Pickled data)]> (files w)) w).
Proof.
  intros [Hopen Hdump]. revert Hdump.
  unfold save_cache, try_except, bind, open_wb, pickle_dump.
  rewrite Hopen. cbn [snd]. intros ->. cbn [now files set_files].
  by rewrite insert_insert_eq.
Qed.

(** X4: Round trip: when the write goes through, what [save_cache] wrote is
    what a later read within the expiry time gives back. *)
Lemma save_then_load open_error dump_error w data symbol data_type
    expiry_hours delta :
  writes open_error dump_error data symbol data_type w ->
  (delta <= inject_Z (expiry_hours * 3600))%Q ->
  let w1 := elapse delta
              (snd (save_cache open_error dump_error data symbol data_type w)) in
  load_cache symbol data_type expiry_hours w1 = (Ret (Some data), w1).
Proof.
  intros Hwrites Hdelta w1. subst w1. rewrite (save_cache_written _ _ _ _ _ _ Hwrites).
  apply load_cache_served with (f := mkFile (now w) (Pickled data)).
  - simpl. apply lookup_insert_eq.
  - reflexivity.
  - simpl. lra.
Qed.


End cache_facts.

Lemma cache_ttl_witness :
  Cache.load_cache "300750" "fund_flow" 24
    (Scenario.cache_at 3600 (Cache.Pickled Scenario.dataset))
  = (Ret (Some Scenario.dataset),
     Scenario.cache_at 3600 (Cache.Pickled Scenario.dataset))
  /\ fst (Cache.load_cache "300750" "fund_flow" 24
            (Scenario.cache_at 90000 (Cache.Pickled Scenario.dataset)))
     = Ret None
  /\ Cache.files
       (snd (Cache.load_cache "300750" "fund_flow" 24
               (Scenario.cache_at 90000 (Cache.Pickled Scenario.dataset))))
       !! Cache.get_cache_path "300750" "fund_flow" = None.
Proof.
  split.
  - apply (cache_ttl (Scenario.cache_at 3600 (Cache.Pickled Scenario.dataset))
             "300750" "fund_flow" 24
             (Cache.mkFile 0 (Cache.Pickled Scenario.dataset)) Scenario.dataset).
    + apply lookup_singleton_eq.
    + reflexivity.
    + by apply Qle_bool_iff.
  - destruct (cache_ttl (Scenario.cache_at 90000 (Cache.Pickled Scenario.dataset))
                "300750" "fund_flow" 24
                (Cache.mkFile 0 (Cache.Pickled Scenario.dataset)) Scenario.dataset)
      as [_ Hold].
    + apply lookup_singleton_eq.
    + reflexivity.
    + destruct Hold as [Hread Hgone]; [reflexivity |].
      split; [by rewrite Hread | exact Hgone].
Defined.

(** C4 as the specification words it fails at age [= TTL]: the entry written
    at time 0 and read with [expiry_hours=24] at time 86400 is as old as the
    TTL, yet the read serves it and leaves it in the store. *)
Lemma cache_read_at_ttl_is_served :
  let w := Scenario.cache_at 86400 (Cache.Pickled Scenario.dataset) in
  let key := Cache.get_cache_path "300750" "fund_flow" in
  (inject_Z (24 * 3600) <= Cache.now w - 0)%Q
  /\ fst (Cache.load_cache "300750" "fund_flow" 24 w) = Ret (Some Scenario.dataset)
  /\ fst (Cache.load_cache "300750" "fund_flow" 24 w) <> Ret None
  /\ Cache.files (snd (Cache.load_cache "300750" "fund_flow" 24 w)) !! key
     = Some (Cache.mkFile 0 (Cache.Pickled Scenario.dataset)).
Proof.
  assert (E : Cache.load_cache "300750" "fund_flow" 24
                (Scenario.cache_at 86400 (Cache.Pickled Scenario.dataset))
              = (Ret (Some Scenario.dataset),
                 Scenario.cache_at 86400 (Cache.Pickled Scenario.dataset))).
  { eapply load_cache_served.
    - apply lookup_singleton_eq.
    - reflexivity.
    - by apply Qle_bool_iff. }
  simpl. rewrite E. simpl.
  split; [by apply Qle_bool_iff |].
  split; [reflexivity |].
  split; [discriminate | apply lookup_singleton_eq].
Qed.


(* ===================================================================== *)
(** * The stream assembler                                                 *)
(* ===================================================================== *)

Section stream_facts.
Import Stream StreamSpec.
Implicit Types (response pre post : list item) (c : chunk).

(** A chunk without choices, or whose first choice has no delta, is
    skipped. *)
Lemma consume_skips pre post it reasoning content :
  effective it = None -> breaks it = false ->
  consume (pre ++ it :: post) reasoning content
  = consume (pre ++ post) reasoning content.
Proof.
  intros Heff Hbr. revert reasoning content.
  induction pre as [|x pre IH]; intros reasoning content; simpl.
  - destruct it as [c|e]; [|discriminate]. simpl in Heff.
    destruct (choices c) as [|first_choice rest]; [reflexivity |].
    destruct (choice_delta first_choice); [discriminate | reflexivity].
  - destruct x as [c|e]; [|reflexivity].
    destruct (choices c) as [|first_choice rest]; [apply IH |].
    destruct (choice_delta first_choice); [|apply IH].
    destruct (decide _); [reflexivity | apply IH].
Qed.

(** As long as no item stops or breaks the stream, the content buffer grows
    by the content fragments in order, and the loop goes on. *)
Lemma consume_passes pre post reasoning buffer :
  forallb passes pre = true ->
  exists reasoning',
    consume (pre ++ post) reasoning buffer
    = consume post reasoning'
        (fold_left String.append (omap fragment_of pre) buffer).
Proof.
  revert reasoning buffer.
  induction pre as [|x pre IH]; intros reasoning buffer Hpass; simpl in *.
  - by exists reasoning.
  - apply andb_true_iff in Hpass as [Hx Hpre].
    unfold passes in Hx. apply andb_true_iff in Hx as [Hstop Hbreak].
    destruct x as [c|e]; [|discriminate].
    unfold fragment_of, stops in *. simpl in *.
    destruct (choices c) as [|first_choice rest]; [by apply IH |].
    destruct (choice_delta first_choice) as [d|]; [|by apply IH].
    apply negb_true_iff, bool_decide_eq_false in Hstop.
    destruct (decide _) as [Heq|_]; [done |].
    destruct (content d) as [s|]; simpl; by apply IH.
Qed.

(** The reasoning fragments never reach the content buffer or the finished
    flag. *)
Lemma consume_ignores_reasoning f response reasoning reasoning' content :
  match consume response reasoning content,
        consume (map (map_reasoning f) response) reasoning' content with
  | Ret a, Ret a' =>
      content_buffer a = content_buffer a' /\ finished a = finished a'
  | Raise e, Raise e' => e = e'
  | _, _ => False
  end.
Proof.
  revert reasoning reasoning' content.
  induction response as [|x response IH]; intros reasoning reasoning' content;
    simpl; [done |].
  destruct x as [c|e]; simpl; [|done].
  destruct (choices c) as [|first_choice rest]; simpl; [apply IH |].
  destruct (choice_delta first_choice) as [d|]; simpl; [|apply IH].
  destruct (decide _); simpl; [done | apply IH].
Qed.

(** C5: the three-chunk stream of the specification assembles to "ab"; the
    stream that ends without a finish chunk gives [None]; a chunk with no
    choices or with no delta changes nothing; and the result does not depend
    on the reasoning fragments. *)
Theorem stream_assembly max_retries attempt :
  process_response
    [Scenario.content_chunk "a"; Scenario.content_chunk "b"; Scenario.finish_chunk]
    max_retries attempt = Some "ab"
  /\ process_response [Scenario.content_chunk "a"] max_retries attempt = None
  /\ (forall pre post,
        process_response (pre ++ Chunk (mkChunk []) :: post) max_retries attempt
        = process_response (pre ++ post) max_retries attempt)
  /\ (forall pre post reason others,
        process_response
          (pre ++ Chunk (mkChunk (mkChoice None reason :: others)) :: post)
          max_retries attempt
        = process_response (pre ++ post) max_retries attempt)
  /\ (forall f response,
        process_response (map (map_reasoning f) response) max_retries attempt
        = process_response response max_retries attempt).
Proof.
  split; [reflexivity |]. split; [reflexivity |].
  unfold process_response. split; [|split].
  - intros pre post. by rewrite consume_skips.
  - intros pre post reason others. by rewrite consume_skips.
  - intros f response.
    pose proof (consume_ignores_reasoning f response "" "" "") as H.
    destruct (consume response "" "") as [a|e],
             (consume (map (map_reasoning f) response) "" "") as [a'|e'];
      try done.
    destruct H as [-> ->]. reflexivity.
Qed.

(** C10: when the chunk that carries the finish signal also carries a content
    fragment, the result is the concatenation of the content fragments of the
    chunks before it; the fragment of the finish chunk is left out. *)
Theorem finish_chunk_content_dropped
    pre reasoning fragment others post max_retries attempt :
  forallb passes pre = true ->
  process_response
    (pre ++ Chunk (mkChunk
                     (mkChoice (Some (mkDelta reasoning (Some fragment)))
                        (Some "stop") :: others)) :: post)
    max_retries attempt
  = Some (concat_fragments (omap fragment_of pre)).
Proof.
  intros Hpass. unfold process_response.
  destruct (consume_passes pre
              (Chunk (mkChunk
                        (mkChoice (Some (mkDelta reasoning (Some fragment)))
                           (Some "stop") :: others)) :: post) "" "" Hpass)
    as [reasoning' ->].
  reflexivity.
Qed.

End stream_facts.

Lemma finish_chunk_content_witness :
  Stream.process_response
    ([Scenario.content_chunk "a"; Scenario.reasoning_chunk "thinking";
      Scenario.content_chunk "b"]
     ++ Stream.Chunk
          (Stream.mkChunk
             [Stream.mkChoice (Some (Stream.mkDelta None (Some "c")))
                (Some "stop")]) :: []) 5 0
  = Some "ab".
Proof.
  apply (finish_chunk_content_dropped
           [Scenario.content_chunk "a"; Scenario.reasoning_chunk "thinking";
            Scenario.content_chunk "b"] None "c" [] [] 5 0).
  reflexivity.
Defined.

(* ===================================================================== *)
(** * The engine call                                                      *)
(* ===================================================================== *)

Section engine_facts.
Import Stream Engine.
Context {W : Type}.
Variable to_json : DataFrame -> outcome string.
Variable create : request -> M W (list item).

(** When every attempt fails, every index of the loop makes one request and
    the loop ends with the failure message; the world is left as that many
    requests in a row leave it. *)
Lemma ask_attempts_exhausted req max_retries todo w :
  (forall w0, attempt_fails create req max_retries w0) ->
  exists tr,
    ask_attempts create req max_retries todo w
    = (failure_message,
       Nat.iter (length todo) (fun w0 => snd (create req w0)) w, tr)
    /\ calls tr = length todo.
Proof.
  intros Hfail. revert w.
  induction todo as [|attempt rest IH]; intros w.
  - by exists [].
  - cbn [length]. rewrite Nat.iter_succ_r. cbn [ask_attempts].
    specialize (Hfail w). unfold attempt_fails in Hfail.
    destruct (create req w) as [[response|e] w1]; cbn [snd].
    + rewrite Hfail. destruct (IH w1) as (tr & -> & Hcalls).
      exists (EvCall attempt :: tr). split; [reflexivity |].
      unfold calls in *. simpl. by rewrite Hcalls.
    + destruct (IH w1) as (tr & -> & Hcalls).
      destruct (attempt <? max_retries - 1).
      * exists (EvCall attempt :: EvSleep (wait_time e) :: tr).
        split; [reflexivity |]. unfold calls in *. simpl. by rewrite Hcalls.
      * exists (EvCall attempt :: tr).
        split; [reflexivity |]. unfold calls in *. simpl. by rewrite Hcalls.
Qed.

(** X8: With a dataset at hand, an engine whose every attempt fails is sent
    the composed request [max_retries] times in a row: the world is left as
    that many requests leave it; [askDeepSeek] then returns its failure
    message and raises nothing. *)
Lemma askDeepSeek_exhausted df fund stock_code prompt max_retries w stock_json :
  empty df = false ->
  to_json df = Ret stock_json ->
  missing fund = true ->
  (forall req w0, attempt_fails create req max_retries w0) ->
  exists tr,
    askDeepSeek to_json create (Some df) fund stock_code prompt max_retries w
    = (Ret failure_message,
       Nat.iter (Z.to_nat max_retries)
         (fun w0 =>
            snd (create
                   (mkRequest prompt
                      (compose_user_content stock_code stock_json "")) w0)) w,
       tr)
    /\ calls tr = Z.to_nat max_retries.
Proof.
  intros Hdf Hjson Hfund Hfail. unfold askDeepSeek. rewrite Hdf, Hjson.
  assert (Hf : match fund with
               | Some fdf => if empty fdf then Ret "" else to_json fdf
               | None => Ret ""
               end = Ret "").
  { destruct fund as [fdf|]; [|reflexivity]. simpl in Hfund. by rewrite Hfund. }
  rewrite Hf.
  destruct (ask_attempts_exhausted
              (mkRequest prompt (compose_user_content stock_code stock_json ""))
              max_retries (range max_retries) w (Hfail _))
    as (tr & -> & Hcalls).
  assert (Hlen : length (range max_retries) = Z.to_nat max_retries)
    by (unfold range; by rewrite length_map, length_seq).
  rewrite Hlen in *. by exists tr.
Qed.

(** A first attempt whose stream assembles to a non-empty reply ends the
    call with that reply. *)
Lemma ask_attempts_first_reply req max_retries attempt rest w response w' reply :
  create req w = (Ret response, w') ->
  process_response response max_retries attempt = Some reply ->
  nonempty reply = true ->
  ask_attempts create req max_retries (attempt :: rest) w
  = (reply, w', [EvCall attempt]).
Proof. intros Hc Hp Hn. simpl. by rewrite Hc, Hp, Hn. Qed.

End engine_facts.

(** C6, at a concrete run: the dataset is there, and every request to the
    engine either fails in transport or streams without a finish chunk.
    [askDeepSeek] makes its five requests, raises nothing and returns its
    failure message; each role then returns that message as a string, which
    is not the role's default record. *)
Theorem engine_exhaustion_reaches_caller :
  (exists tr,
     Engine.askDeepSeek Scenario.to_json Scenario.engine_down
       (Some Scenario.dataset) None "300750" (Some "instructions") 5 0%nat
     = (Ret Engine.failure_message, 5%nat, tr)
     /\ Retry.calls tr = 5%nat)
  /\ (forall r,
        fst (Scenario.analyze_with Scenario.have_data Scenario.engine_down r
               "300750" 0%nat)
        = Ret (Agent.PStr Engine.failure_message))
  /\ (forall r reason e,
        Agent.PStr Engine.failure_message <> Agent.default_of r reason e).
Proof.
  split; [eexists; split; [vm_compute; reflexivity | reflexivity] |].
  split.
  - intros r. destruct r; vm_compute; reflexivity.
  - intros r reason e. destruct r; discriminate.
Qed.

(* ===================================================================== *)
(** * The roles                                                            *)
(* ===================================================================== *)

Section role_facts.
Import Agent.
Context {W : Type}.
Variable get_stock_data : string -> M W (option DataFrame).
Variable stock_individual_fund_flow : string -> M W (option DataFrame).
Variable get_stock_info : string -> M W (option DataFrame).
Variable get_index_data : string -> M W (option DataFrame).
Variable get_board_hist_data : string -> M W (option DataFrame).
Variable get_stock_intraday_data : string -> M W (option DataFrame).
Variable render : role -> prompt_inputs -> outcome string.
Variable to_json : DataFrame -> outcome string.
Variable create : Engine.request -> M W (list Stream.item).

Abbreviation analyze := (analyze get_stock_data stock_individual_fund_flow
  get_stock_info get_index_data get_board_hist_data get_stock_intraday_data
  render to_json create).
Abbreviation run_agent := (run_agent get_stock_data stock_individual_fund_flow
  get_stock_info get_index_data get_board_hist_data get_stock_intraday_data
  render to_json create).
Abbreviation prepare := (prepare get_stock_info get_index_data
  get_board_hist_data get_stock_intraday_data render).
Abbreviation ask := (ask to_json create).

Ltac run_analyze :=
  unfold phase_analyze, volume_analyze, spring_analyze, target_analyze,
    strength_analyze, phase_collect_stock_info, fetch_stock_info,
    get_market_benchmark_data, get_industry_data, lift,
    try_except, bind, raise, ret.

(** [analyze] of every role, handler by handler: a fetch that raises or
    gives no dataset ends in the default record with the reason of the
    whole method; otherwise the outcome of this run's engine call decides. *)
Lemma analyze_unfolded r stock_code w :
  analyze r stock_code w
  = (let '(fetched, w1) := get_stock_data stock_code w in
     match fetched with
     | Raise e => (Ret (default_of r analyze_failed e), w1)
     | Ret stock_data =>
         if missing stock_data
         then (Ret (default_of r analyze_failed (ValueError "无法获取股票数据")),
               w1)
         else
           let '(fetched, w2) := stock_individual_fund_flow stock_code w1 in
           match fetched with
           | Raise e => (Ret (default_of r analyze_failed e), w2)
           | Ret fund_flow_data =>
               let '(prepared, w3) :=
                 prepare r stock_code stock_data fund_flow_data w2 in
               match prepared with
               | Raise e => (Ret (default_of r analyze_failed e), w3)
               | Ret prompt =>
                   let '(answer, w4) :=
                     ask stock_data fund_flow_data stock_code prompt w3 in
                   match answer with
                   | Ret reply => (Ret (PStr reply), w4)
                   | Raise e => (Ret (default_of r (engine_reason r) e), w4)
                   end
               end
           end
     end).
Proof.
  destruct r; cbn [Agent.analyze Agent.prepare engine_reason default_of];
    run_analyze; repeat case_match; simplify_eq; reflexivity.
Qed.

(** Every handler of [analyze] ends in a [return]: the method raises
    nothing, whatever its collaborators do. *)
Lemma analyze_returns r stock_code w :
  exists v w', analyze r stock_code w = (Ret v, w').
Proof.
  rewrite analyze_unfolded. repeat case_match; by eexists _, _.
Qed.

(** A runner gives what [analyze] gives. *)
Lemma run_agent_is_analyze r stock_code w :
  run_agent r stock_code w = analyze r stock_code w.
Proof.
  destruct (analyze_returns r stock_code w) as (v & w' & E).
  destruct r; simpl in *;
    unfold run_phase_hunter_agent, run_volume_detective_agent,
      run_spring_hunter_agent, run_target_engineer_agent,
      run_strength_commander_agent, try_except; by rewrite E.
Qed.

(** The default record of a role: the field names of the role's template
    in the template's order, but for the target engineer's, which writes
    "K값" where its template has "K值"; a neutral signal, confidence 50, the
    failure reason and a debug trace. *)
Lemma default_record_shape r reason e :
  fields (default_of r reason e)
  = Some (match r with
          | TargetEngineer =>
              map (fun key => if bool_decide (key = "K值") then "K값" else key)
                (schema TargetEngineer)
          | _ => schema r
          end)
  /\ field "信号" (default_of r reason e) = Some (PStr "中性")
  /\ field "置信度" (default_of r reason e) = Some (PInt 50)
  /\ field "理由" (default_of r reason e) = Some (PStr (reason +:+ exn_msg e))
  /\ field "_debug_reasoning" (default_of r reason e)
     = Some (PList [PStr ("错误详情: " +:+ exn_msg e);
                    PStr ("错误类型: " +:+ exn_type e)]).
Proof. destruct r; repeat split. Qed.

(** C2, as the code has it: [analyze] of every role returns, whatever the
    fetches and the engine do. When a fetch raises or there is no dataset,
    and when the engine call of this run raises, it returns the role's
    default record; when the engine call of this run returns, it returns
    that very string, with no field set. The default record has one field
    set per role whatever the failure (the names of the role's template;
    the target engineer's has "K값" for the template's "K值"), the neutral
    signal, confidence 50, the reason in front of the exception's text and
    a two-line debug trace. *)
Theorem role_record_shape r stock_code w :
  analyze r stock_code w
  = (let '(fetched, w1) := get_stock_data stock_code w in
     match fetched with
     | Raise e => (Ret (default_of r analyze_failed e), w1)
     | Ret stock_data =>
         if missing stock_data
         then (Ret (default_of r analyze_failed (ValueError "无法获取股票数据")),
               w1)
         else
           let '(fetched, w2) := stock_individual_fund_flow stock_code w1 in
           match fetched with
           | Raise e => (Ret (default_of r analyze_failed e), w2)
           | Ret fund_flow_data =>
               let '(prepared, w3) :=
                 prepare r stock_code stock_data fund_flow_data w2 in
               match prepared with
               | Raise e => (Ret (default_of r analyze_failed e), w3)
               | Ret prompt =>
                   let '(answer, w4) :=
                     ask stock_data fund_flow_data stock_code prompt w3 in
                   match answer with
                   | Ret reply => (Ret (PStr reply), w4)
                   | Raise e => (Ret (default_of r (engine_reason r) e), w4)
                   end
               end
           end
     end)
  /\ (forall reply, fields (PStr reply) = None)
  /\ (forall reason e,
        fields (default_of r reason e)
        = Some (match r with
                | TargetEngineer =>
                    map (fun key =>
                           if bool_decide (key = "K值") then "K값" else key)
                      (schema TargetEngineer)
                | _ => schema r
                end)
        /\ field "信号" (default_of r reason e) = Some (PStr "中性")
        /\ field "置信度" (default_of r reason e) = Some (PInt 50)
        /\ field "理由" (default_of r reason e)
           = Some (PStr (reason +:+ exn_msg e))
        /\ field "_debug_reasoning" (default_of r reason e)
           = Some (PList [PStr ("错误详情: " +:+ exn_msg e);
                          PStr ("错误类型: " +:+ exn_type e)])).
Proof.
  split; [apply analyze_unfolded |].
  split; [reflexivity | apply default_record_shape].
Qed.

End role_facts.

(** C2 as the specification words it fails: with the dataset at hand and an
    engine that answers "ok", the phase hunter returns the string "ok", which
    has no fields; without the dataset it returns its default record of nine
    fields. *)
Lemma success_and_fallback_differ_in_shape :
  fst (Scenario.analyze_with Scenario.have_data (Scenario.engine_up "ok")
         Agent.PhaseHunter "300750" 0%nat)
  = Ret (Agent.PStr "ok")
  /\ fst (Scenario.analyze_with Scenario.no_data (Scenario.engine_up "ok")
            Agent.PhaseHunter "300750" 0%nat)
     = Ret (Agent.phase_hunter_default Agent.analyze_failed
              (ValueError "无法获取股票数据"))
  /\ Agent.fields (Agent.PStr "ok") = None
  /\ Agent.fields (Agent.phase_hunter_default Agent.analyze_failed
                     (ValueError "无法获取股票数据"))
     = Some (Agent.schema Agent.PhaseHunter)
  /\ Agent.fields (Agent.PStr "ok")
     <> Agent.fields (Agent.phase_hunter_default Agent.analyze_failed
                        (ValueError "无法获取股票数据")).
Proof.
  split; [vm_compute; reflexivity |].
  split; [vm_compute; reflexivity |].
  split; [reflexivity |].
  split; [reflexivity | discriminate].
Qed.

(* ===================================================================== *)
(** * The in-memory cache of [StockDataFetcher]                            *)
(* ===================================================================== *)

Section fetcher_facts.
Import Fetcher.
Context {E : Type}.
Variable stock_zh_a_hist : string -> string -> string -> M E DataFrame.
Variable today : E -> Z.
Variable strftime : Z -> string.

Abbreviation body := (get_stock_data_body stock_zh_a_hist today strftime).
Abbreviation get := (get_stock_data stock_zh_a_hist today strftime).
Abbreviation steps := (rtc (step stock_zh_a_hist today strftime)).

Implicit Types (s : state (E := E)) (symbol : string) (ref : nat).

(** The method body catches what the provider raises, so the decorator calls
    it once and hands on its result. *)
Lemma get_stock_data_once symbol s r s' :
  body symbol s = (Ret r, s') -> get symbol s = (r, s').
Proof.
  intros Hbody. unfold get_stock_data, Retry.wrapper.
  change (range 3) with [0; 1; 2].
  by erewrite attempts_returns by eassumption.
Qed.

Lemma get_stock_data_body_returns symbol s :
  exists r s', body symbol s = (Ret r, s').
Proof.
  unfold get_stock_data_body, try_except, bind, call_provider, store, ret.
  repeat case_match; simplify_eq; by eexists _, _.
Qed.

(** A cached symbol is answered from [_cache]; nothing changes, and the
    provider is not called. *)
Lemma get_stock_data_hit symbol s ref :
  _cache s !! symbol = Some ref -> get symbol s = (Some ref, s).
Proof.
  intros Hhit. apply get_stock_data_once.
  unfold get_stock_data_body. by rewrite Hhit.
Qed.

(** A call that gives a DataFrame leaves it in [_cache]. *)
Lemma get_stock_data_cached symbol s ref s' :
  get symbol s = (Some ref, s') -> _cache s' !! symbol = Some ref.
Proof.
  destruct (get_stock_data_body_returns symbol s) as (r & s1 & Hbody).
  rewrite (get_stock_data_once _ _ _ _ Hbody). intros [= -> ->].
  revert Hbody.
  unfold get_stock_data_body, try_except, bind, call_provider, store, ret.
  repeat case_match; intros; simplify_eq; simpl; [done |].
  apply lookup_insert_eq.
Qed.

(** A call never removes or replaces an entry of [_cache]. *)
Lemma get_stock_data_keeps symbol' s symbol ref :
  _cache s !! symbol = Some ref ->
  _cache (snd (get symbol' s)) !! symbol = Some ref.
Proof.
  intros Hin.
  destruct (get_stock_data_body_returns symbol' s) as (r & s1 & Hbody).
  rewrite (get_stock_data_once _ _ _ _ Hbody). simpl. revert Hbody.
  unfold get_stock_data_body, try_except, bind, call_provider, store, ret.
  repeat case_match; intros; simplify_eq; simpl; try done.
  rewrite lookup_insert_ne; [done | congruence].
Qed.

Lemma steps_keep s s' symbol ref :
  steps s s' -> _cache s !! symbol = Some ref -> _cache s' !! symbol = Some ref.
Proof.
  induction 1 as [|s1 s2 s3 Hstep _ IH]; [done |].
  intros Hin. apply IH. destruct Hstep; simpl; [|done..].
  by apply get_stock_data_keeps.
Qed.


End fetcher_facts.


(* ===================================================================== *)
(** * The orchestrator                                                     *)
(* ===================================================================== *)

Section orchestrator_facts.
Import Agent Orchestrator.
Context {W : Type}.
Variable run_phase_hunter_agent : string -> M W pyval.
Variable run_volume_detective_agent : string -> M W pyval.
Variable run_spring_hunter_agent : string -> M W pyval.
Variable run_target_engineer_agent : string -> M W pyval.
Variable run_strength_commander_agent : string -> M W pyval.
Variable run_chief_strategist_agent : list pyval -> M W pyval.
Variable json_dumps : pyval -> outcome string.
Variable timestamp : W -> string.

Abbreviation run := (run_wyckoff_multi_agent_analysis
  run_phase_hunter_agent run_volume_detective_agent run_spring_hunter_agent
  run_target_engineer_agent run_strength_commander_agent
  run_chief_strategist_agent json_dumps timestamp).
Abbreviation roles := (declared_roles
  run_phase_hunter_agent run_volume_detective_agent run_spring_hunter_agent
  run_target_engineer_agent run_strength_commander_agent).

Implicit Types (f : frame (W := W)) (runner : string -> M W pyval).

(** One numbered block: the record of a runner that returned is appended,
    also when printing it fails afterwards; a runner that raised adds
    nothing. Either way the block itself raises nothing. *)
Lemma expert_block runner stock_code f o w' :
  runner stock_code (world f) = (o, w') ->
  expert json_dumps runner stock_code f
  = (Ret tt,
     mkFrame w' (expert_reports f ++ option_list (returned o))
       (aggregator_calls f)).
Proof.
  intros Hrun. unfold expert, try_except, bind, call, append, print_json, ret.
  rewrite Hrun. destruct o as [result|e]; simpl.
  - destruct (json_dumps result); reflexivity.
  - by rewrite app_nil_r.
Qed.

(** Block 6 calls the aggregator once, with the list as it stands, and
    raises nothing. *)
Lemma chief_strategist_block f :
  exists v w',
    chief_strategist run_chief_strategist_agent json_dumps f
    = (Ret v,
       mkFrame w' (expert_reports f)
         (aggregator_calls f ++ [expert_reports f])).
Proof.
  unfold chief_strategist, try_except, bind, aggregate, print_json, ret.
  destruct (run_chief_strategist_agent (expert_reports f) (world f))
    as [[v|e] w']; simpl; [|by eexists _, _].
  destruct (json_dumps v); by eexists _, _.
Qed.

(** Each of the five runners is run once, in the declared order. *)
Lemma runner_outcomes_five stock_code w :
  length (fst (runner_outcomes roles stock_code w)) = 5%nat.
Proof.
  unfold declared_roles, runner_outcomes.
  repeat case_match. by simplify_eq.
Qed.

(** The whole run, block by block. *)
Lemma run_unfolded stock_code w :
  let reports := omap returned (fst (runner_outcomes roles stock_code w)) in
  exists v w',
    run stock_code (enter w)
    = (Ret (PDict [("股票代码", PStr stock_code);
                   ("分析时间", PStr (timestamp w'));
                   ("专家分析报告", PList reports);
                   ("综合策略", v)]),
       mkFrame w' reports [reports]).
Proof.
  unfold declared_roles, runner_outcomes, run_wyckoff_multi_agent_analysis, enter.
  destruct (run_phase_hunter_agent stock_code w) as [o1 w1] eqn:E1.
  destruct (run_volume_detective_agent stock_code w1) as [o2 w2] eqn:E2.
  destruct (run_spring_hunter_agent stock_code w2) as [o3 w3] eqn:E3.
  destruct (run_target_engineer_agent stock_code w3) as [o4 w4] eqn:E4.
  destruct (run_strength_commander_agent stock_code w4) as [o5 w5] eqn:E5.
  unfold bind.
  erewrite expert_block by (simpl; exact E1). cbv beta iota.
  erewrite expert_block by (simpl; exact E2). cbv beta iota.
  erewrite expert_block by (simpl; exact E3). cbv beta iota.
  erewrite expert_block by (simpl; exact E4). cbv beta iota.
  erewrite expert_block by (simpl; exact E5). cbv beta iota.
  match goal with
  | |- context [chief_strategist _ _ ?f] =>
      destruct (chief_strategist_block f) as (v & w' & ->)
  end.
  exists v, w'. destruct o1, o2, o3, o4, o5; reflexivity.
Qed.


(** When no runner raises, the aggregator gets the five records in the
    declared order. *)
Lemma five_records_when_all_return stock_code w r1 r2 r3 r4 r5 :
  fst (runner_outcomes roles stock_code w)
  = [Ret r1; Ret r2; Ret r3; Ret r4; Ret r5] ->
  aggregator_calls (snd (run stock_code (enter w))) = [[r1; r2; r3; r4; r5]].
Proof.
  intros Hall.
  destruct (run_unfolded stock_code w) as (v & w' & ->).
  cbn [snd aggregator_calls]. by rewrite Hall.
Qed.

End orchestrator_facts.


Section batch_facts.
Import Agent Orchestrator.
Context {W : Type}.
Variable get_stock_data : string -> M W (option DataFrame).
Variable stock_individual_fund_flow : string -> M W (option DataFrame).
Variable get_stock_info : string -> M W (option DataFrame).
Variable get_index_data : string -> M W (option DataFrame).
Variable get_board_hist_data : string -> M W (option DataFrame).
Variable get_stock_intraday_data : string -> M W (option DataFrame).
Variable render : role -> prompt_inputs -> outcome string.
Variable to_json : DataFrame -> outcome string.
Variable create : Engine.request -> M W (list Stream.item).
Variable run_chief_strategist_agent : list pyval -> M W pyval.
Variable json_dumps : pyval -> outcome string.
Variable timestamp : W -> string.

Abbreviation runner := (run_agent get_stock_data stock_individual_fund_flow
  get_stock_info get_index_data get_board_hist_data get_stock_intraday_data
  render to_json create).


End batch_facts.

(* ===================================================================== *)
(** * More on the retry wrapper                                            *)
(* ===================================================================== *)

Section retry_more.
Context {W A : Type}.
Implicit Types (func : M W A) (w : W).
Import Retry.

Lemma attempts_exhausted max_retries retry_delay func (first count : nat) w :
  (forall w0, exists e, fst (func w0) = Raise e) ->
  Z.of_nat (first + count) = max_retries ->
  exists tr,
    attempts max_retries retry_delay func (map Z.of_nat (seq first count)) w
    = (None, Nat.iter count (fun w0 => snd (func w0)) w, tr)
    /\ calls tr = count /\ sleeps tr = pred count.
Proof.
  intros Hfail. revert first w.
  induction count as [|count IH]; intros first w Hsum.
  - by exists [].
  - rewrite Nat.iter_succ_r. cbn [seq map attempts].
    destruct (Hfail w) as [e He]. destruct (func w) as [o w1].
    simpl in He; subst o. cbn [snd].
    destruct (Z.ltb_spec (Z.of_nat first) (max_retries - 1)) as [Hlt | Hge].
    + destruct (IH (S first) w1 ltac:(lia)) as (tr & -> & Hc & Hs).
      exists (EvCall (Z.of_nat first) :: EvSleep retry_delay :: tr).
      split; [reflexivity |]. unfold calls, sleeps in *. simpl.
      rewrite Hc, Hs. split; [reflexivity | lia].
    + assert (count = 0%nat) as -> by lia.
      by exists [EvCall (Z.of_nat first)].
Qed.

(** X2: Whatever [max_retries] is, an operation that raises on every call is
    called [max_retries] times in a row (not at all when [max_retries <= 0]):
    the world is left as that many calls leave it, with a sleep between two
    calls and none after the last; the wrapper gives [None]. *)
Theorem wrapper_exhausts max_retries retry_delay func w :
  (forall w0, exists e, fst (func w0) = Raise e) ->
  exists tr,
    wrapper max_retries retry_delay func w
    = (None, Nat.iter (Z.to_nat max_retries) (fun w0 => snd (func w0)) w, tr)
    /\ calls tr = Z.to_nat max_retries
    /\ sleeps tr = pred (Z.to_nat max_retries).
Proof.
  intros Hfail. unfold wrapper, range.
  destruct (Z.le_gt_cases max_retries 0) as [Hle | Hgt].
  - replace (Z.to_nat max_retries) with 0%nat by lia. by exists [].
  - apply attempts_exhausted; [exact Hfail | lia].
Qed.

Lemma attempts_value_from_func max_retries retry_delay func todo w v w' tr :
  attempts max_retries retry_delay func todo w = (Some v, w', tr) ->
  exists w0, func w0 = (Ret v, w').
Proof.
  revert w tr. induction todo as [|attempt rest IH]; intros w tr; simpl.
  - discriminate.
  - destruct (func w) as [[v0|e] w1] eqn:Ef.
    + intros [= -> -> _]. by exists w.
    + destruct (attempt <? max_retries - 1); [|discriminate].
      destruct (attempts max_retries retry_delay func rest w1)
        as [[r w2] tr2] eqn:Erest.
      intros [= -> -> _]. by eapply IH.
Qed.

(** X3: A value that the wrapper returns is the value that a call of the wrapped
    function returned, and the world is left as that call left it. *)
Theorem wrapper_value_from_func max_retries retry_delay func w v w' tr :
  wrapper max_retries retry_delay func w = (Some v, w', tr) ->
  exists w0, func w0 = (Ret v, w').
Proof. apply attempts_value_from_func. Qed.

End retry_more.

Lemma wrapper_exhausts_witness :
  exists tr,
    Retry.wrapper 5 2 Scenario.always_failing 0%nat
    = (None,
       Nat.iter (Z.to_nat 5) (fun w0 => snd (Scenario.always_failing w0)) 0%nat,
       tr)
    /\ Retry.calls tr = Z.to_nat 5
    /\ Retry.sleeps tr = pred (Z.to_nat 5).
Proof.
  apply (wrapper_exhausts 5 2 Scenario.always_failing 0%nat).
  intros w0. by exists Scenario.timeout_error.
Defined.

Lemma wrapper_value_from_func_witness :
  exists w0, Scenario.fails_once w0 = (Ret "dataset", 2%nat).
Proof.
  apply (wrapper_value_from_func 3 1 Scenario.fails_once 0%nat "dataset" 2%nat
           [Retry.EvCall 0; Retry.EvSleep 1; Retry.EvCall 1]).
  reflexivity.
Defined.

(* ===================================================================== *)
(** * More on the cache                                                    *)
(* ===================================================================== *)

Section cache_more.
Import Cache.
Implicit Types (w : world) (f : file) (df : DataFrame).

(** Whether or not a write goes through, it changes at most the file of its
    own key and leaves the clock alone. *)
Lemma save_cache_frame open_error dump_error w data symbol data_type :
  exists w',
    save_cache open_error dump_error data symbol data_type w = (Ret tt, w')
    /\ now w' = now w
    /\ (files w' = files w
        \/ exists f, files w' = <[get_cache_path symbol data_type := f]> (files w)).
Proof.
  unfold save_cache, try_except, bind, open_wb, pickle_dump, ret.
  destruct (open_error _ w); [by eexists; repeat split; left |].
  cbn [set_files now files].
  destruct (dump_error _ _).
  - eexists. split; [reflexivity |]. split; [reflexivity |]. right. by eexists.
  - eexists. split; [reflexivity |]. split; [reflexivity |]. right.
    cbn [set_files now files]. rewrite insert_insert_eq. by eexists.
Qed.

(** X5: A second [save_cache] under the same key that goes through replaces
    whatever the first one left, written or not: a read within the expiry
    time of the second write gives the second payload, and the store is the
    one before the first write with the second pickle under the key. *)
Theorem save_overwrites open_error dump_error w first second symbol data_type
    expiry_hours delta1 delta2 :
  let w1 := elapse delta1
              (snd (save_cache open_error dump_error first symbol data_type w)) in
  let w2 := elapse delta2
              (snd (save_cache open_error dump_error second symbol data_type w1)) in
  writes open_error dump_error second symbol data_type w1 ->
  (delta2 <= inject_Z (expiry_hours * 3600))%Q ->
  load_cache symbol data_type expiry_hours w2 = (Ret (Some second), w2)
  /\ files w2 = <[get_cache_path symbol data_type
                  := mkFile (now w + delta1) (Pickled second)]> (files w).
Proof.
  intros w1 w2 Hwrites Hdelta. subst w2.
  rewrite (save_cache_written _ _ _ _ _ _ Hwrites).
  destruct (save_cache_frame open_error dump_error w first symbol data_type)
    as (w' & Hfirst & Hnow & Hfiles).
  assert (Hw1 : now w1 = (now w + delta1)%Q /\ files w1 = files w')
    by (subst w1; rewrite Hfirst; simpl; by rewrite Hnow).
  destruct Hw1 as [Hnow1 Hfiles1]. split.
  - apply load_cache_served with (f := mkFile (now w1) (Pickled second)).
    + simpl. apply lookup_insert_eq.
    + reflexivity.
    + simpl. lra.
  - cbn [elapse files snd set_files]. rewrite Hnow1, Hfiles1.
    destruct Hfiles as [-> | [f ->]]; [reflexivity | apply insert_insert_eq].
Qed.

(** X26: A write whose file cannot be opened is only logged: [save_cache]
    returns normally and the store is as it was. *)
Theorem save_cache_open_failure open_error dump_error w data symbol data_type e :
  open_error (get_cache_path symbol data_type) w = Some e ->
  save_cache open_error dump_error data symbol data_type w = (Ret tt, w).
Proof.
  intros Hopen. unfold save_cache, try_except, bind, open_wb.
  by rewrite Hopen.
Qed.

(** X27: A write whose dump raises after the file was opened is only logged
    as well, and leaves the file without a pickle: whatever the key held
    before, a read of it at any later time gives [None]. *)
Theorem save_cache_dump_failure open_error dump_error w data symbol data_type e :
  open_error (get_cache_path symbol data_type) w = None ->
  dump_error data (snd (open_wb open_error (get_cache_path symbol data_type) w))
  = Some e ->
  let w' := snd (save_cache open_error dump_error data symbol data_type w) in
  fst (save_cache open_error dump_error data symbol data_type w) = Ret tt
  /\ files w' !! get_cache_path symbol data_type = Some (mkFile (now w) truncated)
  /\ forall expiry_hours delta,
       fst (load_cache symbol data_type expiry_hours (elapse delta w')) = Ret None.
Proof.
  intros Hopen Hdump w'. subst w'. revert Hdump.
  unfold save_cache, try_except, bind, open_wb, pickle_dump.
  rewrite Hopen. cbn [snd]. intros ->. cbn [fst snd ret files set_files].
  split; [reflexivity |]. split; [apply lookup_insert_eq |].
  intros expiry_hours delta. unfold load_cache. cbn [elapse files now set_files].
  rewrite lookup_insert_eq. cbn [st_mtime content].
  by destruct (Qgtb _ _).
Qed.


End cache_more.

Lemma save_then_load_witness :
  let w1 := Cache.elapse 3600
              (snd (Cache.save_cache Cases.disk_open Cases.disk_dump
                      Scenario.dataset "300750" "fund_flow"
                      (Cache.mkWorld 100 ∅))) in
  Cache.load_cache "300750" "fund_flow" 24 w1 = (Ret (Some Scenario.dataset), w1).
Proof.
  apply (save_then_load Cases.disk_open Cases.disk_dump (Cache.mkWorld 100 ∅)
           Scenario.dataset "300750" "fund_flow" 24 3600).
  - split; reflexivity.
  - by apply Qle_bool_iff.
Defined.

Lemma save_overwrites_witness :
  let w1 := Cache.elapse 10
              (snd (Cache.save_cache Cases.disk_opens_later Cases.disk_dump
                      (mkDF [] []) "300750" "fund_flow"
                      (Cache.mkWorld 100 ∅))) in
  let w2 := Cache.elapse 3600
              (snd (Cache.save_cache Cases.disk_opens_later Cases.disk_dump
                      Scenario.dataset "300750" "fund_flow" w1)) in
  Cache.load_cache "300750" "fund_flow" 24 w2 = (Ret (Some Scenario.dataset), w2)
  /\ Cache.files w2
     = <[Cache.get_cache_path "300750" "fund_flow"
         := Cache.mkFile (100 + 10) (Cache.Pickled Scenario.dataset)]> ∅.
Proof.
  apply (save_overwrites Cases.disk_opens_later Cases.disk_dump
           (Cache.mkWorld 100 ∅) (mkDF [] []) Scenario.dataset
           "300750" "fund_flow" 24 10 3600).
  - split; reflexivity.
  - by apply Qle_bool_iff.
Defined.

Lemma save_cache_open_failure_witness :
  Cache.save_cache Cases.disk_closed Cases.disk_dump Scenario.dataset
    "300750" "fund_flow" (Scenario.cache_at 100 (Cache.Pickled (mkDF [] [])))
  = (Ret tt, Scenario.cache_at 100 (Cache.Pickled (mkDF [] []))).
Proof.
  apply (save_cache_open_failure Cases.disk_closed Cases.disk_dump
           (Scenario.cache_at 100 (Cache.Pickled (mkDF [] [])))
           Scenario.dataset "300750" "fund_flow"
           (mkExn "PermissionError" "Permission denied")).
  reflexivity.
Defined.

Lemma save_cache_dump_failure_witness :
  let w := Scenario.cache_at 100 (Cache.Pickled (mkDF [] [])) in
  let w' := snd (Cache.save_cache Cases.disk_open Cases.disk_full
                   Scenario.dataset "300750" "fund_flow" w) in
  fst (Cache.save_cache Cases.disk_open Cases.disk_full Scenario.dataset
         "300750" "fund_flow" w) = Ret tt
  /\ Cache.files w' !! Cache.get_cache_path "300750" "fund_flow"
     = Some (Cache.mkFile (Cache.now w) Cache.truncated)
  /\ forall expiry_hours delta,
       fst (Cache.load_cache "300750" "fund_flow" expiry_hours
              (Cache.elapse delta w'))
       = Ret None.
Proof.
  apply (save_cache_dump_failure Cases.disk_open Cases.disk_full
           (Scenario.cache_at 100 (Cache.Pickled (mkDF [] [])))
           Scenario.dataset "300750" "fund_flow"
           (mkExn "OSError" "No space left on device")); reflexivity.
Defined.

(* ===================================================================== *)
(** * More on the stream assembler and the engine call                     *)
(* ===================================================================== *)

Section stream_more.
Import Stream StreamSpec.
Implicit Types (response pre post : list item).

(** When the loop ends with the finished flag set, the stream splits at a
    chunk that carries the finish signal, with only passing items before
    it. *)
Lemma consume_finished response reasoning buffer a :
  consume response reasoning buffer = Ret a ->
  finished a = true ->
  exists pre it post,
    response = (pre ++ it :: post)%list
    /\ forallb passes pre = true
    /\ stops it = true
    /\ content_buffer a
       = fold_left String.append (omap fragment_of pre) buffer.
Proof.
  revert reasoning buffer.
  induction response as [|x response IH]; intros reasoning buffer; simpl.
  - intros [= <-]. discriminate.
  - destruct x as [c|e]; [|discriminate].
    destruct (choices c) as [|first_choice rest] eqn:Hch.
    { intros Hc Hfin. destruct (IH _ _ Hc Hfin) as (pre & it & post & -> & Hp & Hs & Hb).
      exists (Chunk c :: pre), it, post. split; [reflexivity |].
      simpl. unfold passes at 1, stops, fragment_of, effective.
      rewrite Hch. simpl. by rewrite Hp. }
    destruct (choice_delta first_choice) as [d|] eqn:Hd.
    2:{ intros Hc Hfin.
        destruct (IH _ _ Hc Hfin) as (pre & it & post & -> & Hp & Hs & Hb).
        exists (Chunk c :: pre), it, post. split; [reflexivity |].
        simpl. unfold passes at 1, stops, fragment_of, effective.
        rewrite Hch, Hd. simpl. by rewrite Hp. }
    destruct (decide (finish_reason first_choice = Some "stop")) as [Hstop|Hgo].
    + intros [= <-] _. exists [], (Chunk c), response.
      split; [reflexivity |]. split; [reflexivity |]. split; [|reflexivity].
      unfold stops, effective. rewrite Hch, Hd. by apply bool_decide_eq_true.
    + intros Hc Hfin.
      destruct (IH _ _ Hc Hfin) as (pre & it & post & -> & Hp & Hs & Hb).
      exists (Chunk c :: pre), it, post. split; [reflexivity |].
      simpl. unfold passes at 1, stops, fragment_of, effective.
      rewrite Hch, Hd. simpl.
      assert (bool_decide (finish_reason first_choice = Some "stop") = false)
        as -> by by apply bool_decide_eq_false.
      simpl. rewrite Hp. repeat split; [done |].
      rewrite Hb. unfold add. by destruct (content d).
Qed.

(** X7: What [process_response] computes, in full: it gives a string exactly
    when some chunk carries the finish signal and no chunk before it does
    and the transport does not raise before it; the string is then the
    concatenation of the content fragments of the chunks before that chunk.
    In every other case, a stream that ends or breaks before a finish
    signal, it gives [None]. *)
Theorem process_response_spec response max_retries attempt reply :
  process_response response max_retries attempt = Some reply
  <-> exists pre it post,
        response = (pre ++ it :: post)%list
        /\ forallb passes pre = true
        /\ stops it = true
        /\ reply = concat_fragments (omap fragment_of pre).
Proof.
  unfold process_response. split.
  - destruct (consume response "" "") as [a|e] eqn:Hc; [|discriminate].
    destruct (finished a) eqn:Hfin; [|discriminate].
    intros [= <-].
    destruct (consume_finished _ _ _ _ Hc Hfin)
      as (pre & it & post & -> & Hp & Hs & Hb).
    by exists pre, it, post.
  - intros (pre & it & post & -> & Hp & Hs & ->).
    destruct (consume_passes pre (it :: post) "" "" Hp) as [reasoning' ->].
    unfold stops, effective in Hs. destruct it as [c|e]; [|discriminate].
    simpl. destruct (choices c) as [|first_choice rest]; [discriminate |].
    destruct (choice_delta first_choice); [|discriminate].
    apply bool_decide_eq_true in Hs.
    destruct (decide _); [reflexivity | done].
Qed.

End stream_more.

Section engine_more.
Import Stream Engine.
Context {W : Type}.
Variable to_json : DataFrame -> outcome string.
Variable create : request -> M W (list item).

Lemma ask_attempts_bounded req max_retries (first count : nat) w :
  Z.of_nat (first + count) = max_retries ->
  let '(r, _, tr) :=
    ask_attempts create req max_retries (map Z.of_nat (seq first count)) w in
  nonempty r = true
  /\ (calls tr <= count)%nat
  /\ ((count = 0%nat /\ tr = [])
      \/ exists tr' k, tr = (tr' ++ [EvCall k])%list).
Proof.
  revert first w. induction count as [|count IH]; intros first w Hsum; simpl.
  - split; [reflexivity |]. split; [reflexivity | by left].
  - specialize (IH (S first)).
    assert (Hgo : forall w1 slept,
      (slept = [] \/ (exists t, slept = [EvSleep t]) /\ count <> 0%nat) ->
      let '(r, _, tr) :=
        (let '(r, w2, tr) :=
           ask_attempts create req max_retries
             (map Z.of_nat (seq (S first) count)) w1 in
         (r, w2, EvCall (Z.of_nat first) :: (slept ++ tr)%list)) in
      nonempty r = true
      /\ (calls tr <= S count)%nat
      /\ ((S count = 0%nat /\ tr = [])
          \/ exists tr' k, tr = (tr' ++ [EvCall k])%list)).
    { intros w1 slept Hslept. specialize (IH w1 ltac:(lia)).
      destruct (ask_attempts create req max_retries
                  (map Z.of_nat (seq (S first) count)) w1) as [[r w2] tr].
      destruct IH as (Hr & Hc & Hend). split; [exact Hr |].
      split.
      - unfold calls in *. simpl. rewrite List.filter_app, length_app.
        destruct Hslept as [-> | [[t ->] _]]; simpl; lia.
      - right. destruct Hend as [[-> ->] | (tr' & k & ->)].
        + destruct Hslept as [-> | [_ Hne]]; [|done].
          by exists [], (Z.of_nat first).
        + exists (EvCall (Z.of_nat first) :: slept ++ tr')%list, k.
          simpl. by rewrite app_assoc. }
    destruct (create req w) as [[response|e] w1].
    + destruct (process_response response max_retries (Z.of_nat first))
        as [reply|]; [|exact (Hgo w1 [] (or_introl eq_refl))].
      destruct (nonempty reply) eqn:Hn; [|exact (Hgo w1 [] (or_introl eq_refl))].
      split; [exact Hn |]. split; [unfold calls; simpl; lia |].
      right. by exists [], (Z.of_nat first).
    + destruct (Z.ltb_spec (Z.of_nat first) (max_retries - 1)).
      * refine (Hgo w1 [EvSleep (wait_time e)] (or_intror (conj _ _)));
          [by eexists | lia].
      * exact (Hgo w1 [] (or_introl eq_refl)).
Qed.

(** X9: Whatever the engine does, [askDeepSeek] makes at most [max_retries]
    requests and does not sleep after the last one; when it returns, it
    returns a non-empty string: a reply, or one of its two messages. *)
Theorem askDeepSeek_bounded stock_df fund stock_code prompt max_retries w :
  let '(r, _, tr) :=
    askDeepSeek to_json create stock_df fund stock_code prompt max_retries w in
  (calls tr <= Z.to_nat max_retries)%nat
  /\ (tr = [] \/ exists tr' k, tr = (tr' ++ [EvCall k])%list)
  /\ (forall reply, r = Ret reply -> nonempty reply = true).
Proof.
  unfold askDeepSeek.
  destruct stock_df as [df|].
  2:{ split; [unfold calls; simpl; lia |]. split; [by left |].
      by intros reply [= <-]. }
  destruct (empty df).
  { split; [unfold calls; simpl; lia |]. split; [by left |].
    by intros reply [= <-]. }
  destruct (to_json df) as [stock_json|e].
  2:{ split; [unfold calls; simpl; lia |]. split; [by left | discriminate]. }
  destruct (match fund with
            | Some fdf => if empty fdf then Ret "" else to_json fdf
            | None => Ret ""
            end) as [fund_json|e].
  2:{ split; [unfold calls; simpl; lia |]. split; [by left | discriminate]. }
  unfold range.
  destruct (Z.le_gt_cases max_retries 0) as [Hle | Hgt].
  - replace (Z.to_nat max_retries) with 0%nat by lia. simpl.
    split; [reflexivity |]. split; [by left |]. by intros reply [= <-].
  - pose proof (ask_attempts_bounded
                  (mkRequest prompt
                     (compose_user_content stock_code stock_json fund_json))
                  max_retries 0 (Z.to_nat max_retries) w ltac:(lia)) as H.
    destruct (ask_attempts create _ max_retries
                (map Z.of_nat (seq 0 (Z.to_nat max_retries))) w) as [[r w'] tr].
    destruct H as (Hr & Hc & Hend). split; [exact Hc |].
    split; [destruct Hend as [[_ ->] | H]; [by left | by right] |].
    by intros reply [= <-].
Qed.

End engine_more.

Lemma askDeepSeek_exhausted_witness :
  exists tr,
    Engine.askDeepSeek Scenario.to_json Scenario.engine_down
      (Some Scenario.dataset) None "300750" (Some "instructions") 5 0%nat
    = (Ret Engine.failure_message,
       Nat.iter (Z.to_nat 5)
         (fun w0 =>
            snd (Scenario.engine_down
                   (Engine.mkRequest (Some "instructions")
                      (Engine.compose_user_content "300750" "[]" "")) w0))
         0%nat,
       tr)
    /\ Retry.calls tr = Z.to_nat 5.
Proof.
  apply (askDeepSeek_exhausted Scenario.to_json Scenario.engine_down
           Scenario.dataset None "300750" (Some "instructions") 5 0%nat "[]").
  - reflexivity.
  - reflexivity.
  - reflexivity.
  - intros req w0. unfold Engine.attempt_fails, Scenario.engine_down.
    destruct (Nat.even w0); [exact I | reflexivity].
Defined.

(* ===================================================================== *)
(** * More on the in-memory cache of [StockDataFetcher]                    *)
(* ===================================================================== *)

Section fetcher_more.
Import Fetcher.
Context {E : Type}.
Variable stock_zh_a_hist : string -> string -> string -> M E DataFrame.
Variable today : E -> Z.
Variable strftime : Z -> string.

Implicit Types (s : state (E := E)) (symbol : string) (ref : nat).

(** X10: When the provider raises on a symbol that is not cached, the call gives
    [None] and caches nothing; the provider has been asked once, for the
    last 183 days: the body catches the exception, so the decorator never
    gets to retry. *)
Theorem failed_fetch_not_cached symbol s e e' :
  _cache s !! symbol = None ->
  stock_zh_a_hist symbol (strftime (today (provider s) - 183))
    (strftime (today (provider s))) (provider s) = (Raise e, e') ->
  get_stock_data stock_zh_a_hist today strftime symbol s
  = (None, mkState (_cache s) (heap s) e' (S (fetches s)))
  /\ Retry.wrapper 3 1
       (get_stock_data_body stock_zh_a_hist today strftime symbol) s
     = (Some None, mkState (_cache s) (heap s) e' (S (fetches s)),
        [Retry.EvCall 0]).
Proof.
  intros Hmiss Hfetch.
  assert (Hbody : get_stock_data_body stock_zh_a_hist today strftime symbol s
                  = (Ret None, mkState (_cache s) (heap s) e' (S (fetches s)))).
  { unfold get_stock_data_body, try_except, bind, call_provider, get_date_range.
    by rewrite Hmiss, Hfetch. }
  split; [by apply get_stock_data_once |].
  unfold Retry.wrapper. change (range 3) with [0; 1; 2].
  by erewrite attempts_returns by eassumption.
Qed.

(** X11: Whatever DataFrame the provider returns for a symbol that is not cached,
    an empty one too, is stored as a new object and cached under the symbol
    after one request; from then on every call for the symbol gives that
    object. *)
Theorem fetched_frame_is_cached symbol s df e' :
  _cache s !! symbol = None ->
  stock_zh_a_hist symbol (strftime (today (provider s) - 183))
    (strftime (today (provider s))) (provider s) = (Ret df, e') ->
  let ref := length (heap s) in
  let s' := mkState (<[symbol := ref]> (_cache s)) (heap s ++ [df]) e'
              (S (fetches s)) in
  get_stock_data stock_zh_a_hist today strftime symbol s = (Some ref, s')
  /\ heap s' !! ref = Some df
  /\ (forall s2,
        rtc (step stock_zh_a_hist today strftime) s' s2 ->
        get_stock_data stock_zh_a_hist today strftime symbol s2 = (Some ref, s2)).
Proof.
  intros Hmiss Hfetch ref s'.
  assert (Hget : get_stock_data stock_zh_a_hist today strftime symbol s
                 = (Some ref, s')).
  { apply get_stock_data_once.
    unfold get_stock_data_body, try_except, bind, call_provider, store,
      get_date_range, ret.
    by rewrite Hmiss, Hfetch. }
  split; [exact Hget |]. split.
  - subst s' ref. simpl. rewrite lookup_app_r by lia.
    by rewrite Nat.sub_diag.
  - intros s2 Hsteps. apply get_stock_data_hit.
    eapply steps_keep; [exact Hsteps |]. simpl. apply lookup_insert_eq.
Qed.

End fetcher_more.

(* ===================================================================== *)
(** * More on the roles                                                    *)
(* ===================================================================== *)

Section role_more.
Import Agent.
Context {W : Type}.
Variable get_stock_data : string -> M W (option DataFrame).
Variable stock_individual_fund_flow : string -> M W (option DataFrame).
Variable get_stock_info : string -> M W (option DataFrame).
Variable get_index_data : string -> M W (option DataFrame).
Variable get_board_hist_data : string -> M W (option DataFrame).
Variable get_stock_intraday_data : string -> M W (option DataFrame).
Variable render : role -> prompt_inputs -> outcome string.
Variable to_json : DataFrame -> outcome string.
Variable create : Engine.request -> M W (list Stream.item).

(** X12: When the primary dataset cannot be had, because the fetch raises or
    gives [None] or an empty DataFrame, every role returns its default
    record at once, with that error as the reason: no other dataset is
    fetched and the engine is not called. *)
Theorem primary_unavailable r stock_code w w1 e :
  get_stock_data stock_code w = (Raise e, w1)
  \/ (exists d, get_stock_data stock_code w = (Ret d, w1)
                /\ missing d = true
                /\ e = ValueError "无法获取股票数据") ->
  Agent.analyze get_stock_data stock_individual_fund_flow get_stock_info
    get_index_data get_board_hist_data get_stock_intraday_data render
    to_json create r stock_code w
  = (Ret (default_of r analyze_failed e), w1).
Proof.
  intros [Hraise | (d & Hret & Hmiss & ->)];
    destruct r; simpl;
    unfold phase_analyze, volume_analyze, spring_analyze, target_analyze,
      strength_analyze, try_except, bind, raise, ret;
    first [by rewrite Hraise | by rewrite Hret, Hmiss].
Qed.

(** X13: In every role but the phase hunter, a stock-info fetch that raises ends
    the role with its default record. *)
Theorem stock_info_failure_aborts r stock_code w stock_data w1 fund w2 e w3 :
  r <> PhaseHunter ->
  get_stock_data stock_code w = (Ret stock_data, w1) ->
  missing stock_data = false ->
  stock_individual_fund_flow stock_code w1 = (Ret fund, w2) ->
  get_stock_info stock_code w2 = (Raise e, w3) ->
  Agent.analyze get_stock_data stock_individual_fund_flow get_stock_info
    get_index_data get_board_hist_data get_stock_intraday_data render
    to_json create r stock_code w
  = (Ret (default_of r analyze_failed e), w3).
Proof.
  intros Hr Hsd Hmiss Hff Hinfo.
  destruct r; [done | ..]; simpl;
    unfold volume_analyze, spring_analyze, target_analyze, strength_analyze,
      fetch_stock_info, try_except, bind, raise, ret;
    by rewrite Hsd, Hmiss, Hff, Hinfo.
Qed.

(** X14: The phase hunter goes on without the stock info: with the same failing
    stock-info fetch it still asks the engine, with a prompt built without
    the info, and returns the engine's string, or its default record when
    the engine call raises. *)
Theorem phase_hunter_survives_stock_info_failure
    stock_code w stock_data w1 fund w2 e w3 :
  get_stock_data stock_code w = (Ret stock_data, w1) ->
  missing stock_data = false ->
  stock_individual_fund_flow stock_code w1 = (Ret fund, w2) ->
  get_stock_info stock_code w2 = (Raise e, w3) ->
  exists benchmark w4,
    get_market_benchmark_data get_index_data stock_code w3
    = (Ret benchmark, w4)
    /\ phase_analyze get_stock_data stock_individual_fund_flow get_stock_info
         get_index_data render to_json create stock_code w
       = match ask to_json create stock_data fund stock_code
                 (phase_build_prompt render
                    (mkInputs stock_code None stock_data fund benchmark
                       None None)) w4 with
         | (Ret reply, w5) => (Ret (PStr reply), w5)
         | (Raise ai_error, w5) =>
             (Ret (phase_hunter_default engine_failed ai_error), w5)
         end.
Proof.
  intros Hsd Hmiss Hff Hinfo.
  assert (Hb : exists benchmark w4,
             get_market_benchmark_data get_index_data stock_code w3
             = (Ret benchmark, w4)).
  { unfold get_market_benchmark_data, try_except, ret.
    repeat case_match; simplify_eq; by eexists _, _. }
  destruct Hb as (benchmark & w4 & Hb). exists benchmark, w4.
  split; [exact Hb |].
  unfold phase_analyze, phase_collect_stock_info, fetch_stock_info.
  unfold try_except at 1. unfold bind at 1. rewrite Hsd, Hmiss.
  unfold bind at 1. rewrite Hff.
  unfold bind at 1. unfold try_except at 1. unfold bind at 1.
  rewrite Hinfo. unfold ret at 1.
  unfold bind at 1. rewrite Hb.
  unfold try_except, bind, ret.
  by destruct (ask _ _ _ _ _ _ w4) as [[reply|ai_error] w5].
Qed.

(** X15: The stock-info dict built from the rows of an item/value DataFrame: each
    item is a key, and where an item occurs in several rows the last row
    gives the value. *)
Theorem stock_info_last_wins (pairs : list (string * string)) :
  pairs <> [] ->
  stock_info_of
    (Some (mkDF ["item"; "value"] (map (fun p => [p.1; p.2]) pairs)))
  = Ret (Some (list_to_map (reverse pairs))).
Proof.
  intros Hne.
  assert (Hloop : forall todo acc,
    info_of_rows (mkDF ["item"; "value"] (map (fun p => [p.1; p.2]) pairs))
      (map (fun p => [p.1; p.2]) todo) acc
    = Ret (list_to_map (reverse todo) ∪ acc)).
  { induction todo as [|[k v] todo IH]; intros acc; simpl.
    - by rewrite (left_id_L ∅ (∪)).
    - change (cell _ [k; v] "item") with (@Ret string k).
      change (cell _ [k; v] "value") with (@Ret string v).
      cbv beta iota. rewrite IH, reverse_cons, list_to_map_app.
      simpl. rewrite <- (assoc_L (∪)). f_equal. f_equal.
      by rewrite insert_union_singleton_l, insert_empty. }
  unfold stock_info_of.
  destruct pairs as [|p pairs]; [done |].
  change (empty _) with false. cbv iota.
  change (rows _) with (map (fun p : string * string => [p.1; p.2]) (p :: pairs)).
  rewrite Hloop. by rewrite (right_id_L ∅ (∪)).
Qed.

End role_more.

Lemma failed_fetch_witness :
  Fetcher.get_stock_data Cases.provider_down Scenario.today Scenario.strftime
    "300750" Scenario.fresh
  = (None, Fetcher.mkState ∅ [] 20458 1)
  /\ Retry.wrapper 3 1
       (Fetcher.get_stock_data_body Cases.provider_down Scenario.today
          Scenario.strftime "300750") Scenario.fresh
     = (Some None, Fetcher.mkState ∅ [] 20458 1, [Retry.EvCall 0]).
Proof.
  apply (failed_fetch_not_cached Cases.provider_down Scenario.today
           Scenario.strftime "300750" Scenario.fresh Scenario.timeout_error
           20458); reflexivity.
Defined.

Lemma fetched_empty_frame_witness :
  let s' := Fetcher.mkState {[ "300750" := 0%nat ]} [mkDF [] []] 20458 1 in
  Fetcher.get_stock_data Cases.provider_empty Scenario.today Scenario.strftime
    "300750" Scenario.fresh = (Some 0%nat, s')
  /\ Fetcher.heap s' !! 0%nat = Some (mkDF [] [])
  /\ (forall s2,
        rtc (Fetcher.step Cases.provider_empty Scenario.today Scenario.strftime)
          s' s2 ->
        Fetcher.get_stock_data Cases.provider_empty Scenario.today
          Scenario.strftime "300750" s2 = (Some 0%nat, s2)).
Proof.
  apply (fetched_frame_is_cached Cases.provider_empty Scenario.today
           Scenario.strftime "300750" Scenario.fresh (mkDF [] []) 20458);
    reflexivity.
Defined.

Lemma primary_unavailable_witness :
  Scenario.analyze_with Scenario.no_data Scenario.engine_down
    Agent.TargetEngineer "300750" 0%nat
  = (Ret (Agent.default_of Agent.TargetEngineer Agent.analyze_failed
            (ValueError "无法获取股票数据")), 0%nat).
Proof.
  apply (primary_unavailable Scenario.no_data Scenario.no_data Scenario.no_data
           Scenario.no_data Scenario.no_data Scenario.no_data Scenario.render
           Scenario.to_json Scenario.engine_down Agent.TargetEngineer
           "300750" 0%nat 0%nat).
  right. exists None. repeat split.
Defined.

Lemma stock_info_failure_witness :
  Cases.analyze_without_info (Scenario.engine_up "ok") Agent.SpringHunter
    "300750" 0%nat
  = (Ret (Agent.default_of Agent.SpringHunter Agent.analyze_failed
            Scenario.timeout_error), 0%nat).
Proof.
  apply (stock_info_failure_aborts Scenario.have_data Scenario.no_data
           Cases.info_down Scenario.no_data Scenario.no_data Scenario.no_data
           Scenario.render Scenario.to_json (Scenario.engine_up "ok")
           Agent.SpringHunter "300750" 0%nat (Some Scenario.dataset) 0%nat
           None 0%nat Scenario.timeout_error 0%nat);
    [discriminate | reflexivity..].
Defined.

Lemma phase_hunter_survives_witness :
  exists benchmark w4,
    Agent.get_market_benchmark_data Scenario.no_data "300750" 0%nat
    = (Ret benchmark, w4)
    /\ Agent.phase_analyze Scenario.have_data Scenario.no_data Cases.info_down
         Scenario.no_data Scenario.render Scenario.to_json
         (Scenario.engine_up "ok") "300750" 0%nat
       = match Agent.ask Scenario.to_json (Scenario.engine_up "ok")
                 (Some Scenario.dataset) None "300750"
                 (Agent.phase_build_prompt Scenario.render
                    (Agent.mkInputs "300750" None (Some Scenario.dataset) None
                       benchmark None None)) w4 with
         | (Ret reply, w5) => (Ret (Agent.PStr reply), w5)
         | (Raise ai_error, w5) =>
             (Ret (Agent.phase_hunter_default Agent.engine_failed ai_error), w5)
         end.
Proof.
  apply (phase_hunter_survives_stock_info_failure Scenario.have_data
           Scenario.no_data Cases.info_down Scenario.no_data Scenario.render
           Scenario.to_json (Scenario.engine_up "ok") "300750" 0%nat
           (Some Scenario.dataset) 0%nat None 0%nat Scenario.timeout_error
           0%nat); reflexivity.
Defined.

Lemma stock_info_last_wins_witness :
  Agent.stock_info_of
    (Some (mkDF ["item"; "value"]
             (map (fun p => [p.1; p.2])
                [("行业", "电池"); ("股票简称", "宁德时代"); ("行业", "电力设备")])))
  = Ret (Some (list_to_map
                 (reverse [("行业", "电池"); ("股票简称", "宁德时代");
                           ("行业", "电力设备")]))).
Proof.
  apply (stock_info_last_wins
           [("行业", "电池"); ("股票简称", "宁德时代"); ("行业", "电力设备")]).
  discriminate.
Defined.

(* ===================================================================== *)
(** * More on the orchestrator                                             *)
(* ===================================================================== *)

Section orchestrator_more.
Import Agent Orchestrator.
Context {W : Type}.
Variable run_phase_hunter_agent : string -> M W pyval.
Variable run_volume_detective_agent : string -> M W pyval.
Variable run_spring_hunter_agent : string -> M W pyval.
Variable run_target_engineer_agent : string -> M W pyval.
Variable run_strength_commander_agent : string -> M W pyval.
Variable run_chief_strategist_agent : list pyval -> M W pyval.
Variable json_dumps : pyval -> outcome string.
Variable timestamp : W -> string.

Implicit Types (f : frame (W := W)).

(** What block 6 leaves as the consensus: the aggregator's value when the
    aggregator returns and printing the value works, the empty dict when
    either raises. *)
Lemma chief_strategist_value f :
  exists v w',
    chief_strategist run_chief_strategist_agent json_dumps f
    = (Ret v,
       mkFrame w' (expert_reports f)
         (aggregator_calls f ++ [expert_reports f]))
    /\ v = match run_chief_strategist_agent (expert_reports f) (world f) with
           | (Ret value, _) =>
               match json_dumps value with
               | Ret _ => value
               | Raise _ => PDict []
               end
           | (Raise _, _) => PDict []
           end.
Proof.
  unfold chief_strategist, try_except, bind, aggregate, print_json, ret.
  destruct (run_chief_strategist_agent (expert_reports f) (world f))
    as [[v|e] w']; simpl; [|by eexists _, _].
  destruct (json_dumps v); by eexists _, _.
Qed.

(** X17: The run never raises and always returns a batch of the same four fields:
    the subject code, the time, the list of records, and the consensus.
    The consensus is the aggregator's value, or the empty dict when the
    aggregator, or printing its value, raises; the records are there all
    the same. *)
Theorem batch_is_always_returned stock_code w :
  let reports :=
    omap returned
      (fst (runner_outcomes
              (declared_roles run_phase_hunter_agent run_volume_detective_agent
                 run_spring_hunter_agent run_target_engineer_agent
                 run_strength_commander_agent) stock_code w)) in
  exists result f consensus,
    run_wyckoff_multi_agent_analysis run_phase_hunter_agent
      run_volume_detective_agent run_spring_hunter_agent
      run_target_engineer_agent run_strength_commander_agent
      run_chief_strategist_agent json_dumps timestamp stock_code (enter w)
    = (Ret result, f)
    /\ fields result = Some ["股票代码"; "分析时间"; "专家分析报告"; "综合策略"]
    /\ field "股票代码" result = Some (PStr stock_code)
    /\ field "专家分析报告" result = Some (PList reports)
    /\ field "综合策略" result = Some consensus
    /\ (consensus = PDict []
        \/ exists w0 w1,
             run_chief_strategist_agent reports w0 = (Ret consensus, w1)).
Proof.
  unfold declared_roles, runner_outcomes, run_wyckoff_multi_agent_analysis, enter.
  destruct (run_phase_hunter_agent stock_code w) as [o1 w1] eqn:E1.
  destruct (run_volume_detective_agent stock_code w1) as [o2 w2] eqn:E2.
  destruct (run_spring_hunter_agent stock_code w2) as [o3 w3] eqn:E3.
  destruct (run_target_engineer_agent stock_code w3) as [o4 w4] eqn:E4.
  destruct (run_strength_commander_agent stock_code w4) as [o5 w5] eqn:E5.
  unfold bind.
  erewrite expert_block by (simpl; exact E1). cbv beta iota.
  erewrite expert_block by (simpl; exact E2). cbv beta iota.
  erewrite expert_block by (simpl; exact E3). cbv beta iota.
  erewrite expert_block by (simpl; exact E4). cbv beta iota.
  erewrite expert_block by (simpl; exact E5). cbv beta iota.
  match goal with
  | |- context [chief_strategist _ _ ?f] =>
      destruct (chief_strategist_value f) as (v & w' & -> & Hv)
  end.
  cbn [expert_reports world] in Hv.
  eexists _, _, v. split; [reflexivity |].
  split; [reflexivity |]. split; [reflexivity |].
  split; [by destruct o1, o2, o3, o4, o5 |]. split; [reflexivity |].
  match type of Hv with
  | context [run_chief_strategist_agent ?reports ?w0] =>
      destruct (run_chief_strategist_agent reports w0) as [[value|e] w6] eqn:Ea
  end; [|by left].
  destruct (json_dumps value); [|by left].
  right. exists w5, w6. subst v.
  by destruct o1, o2, o3, o4, o5.
Qed.

(** X18: When the aggregator raises, the consensus of the batch is the empty
    dict. *)
Theorem aggregator_failure_gives_empty_consensus stock_code w :
  (forall reports w0, exists e, fst (run_chief_strategist_agent reports w0) = Raise e) ->
  exists result f,
    run_wyckoff_multi_agent_analysis run_phase_hunter_agent
      run_volume_detective_agent run_spring_hunter_agent
      run_target_engineer_agent run_strength_commander_agent
      run_chief_strategist_agent json_dumps timestamp stock_code (enter w)
    = (Ret result, f)
    /\ field "综合策略" result = Some (PDict [])
    /\ field "专家分析报告" result = Some (PList (expert_reports f))
    /\ expert_reports f
       = omap returned
           (fst (runner_outcomes
                   (declared_roles run_phase_hunter_agent
                      run_volume_detective_agent run_spring_hunter_agent
                      run_target_engineer_agent run_strength_commander_agent)
                   stock_code w)).
Proof.
  intros Hdown.
  unfold declared_roles, runner_outcomes, run_wyckoff_multi_agent_analysis, enter.
  destruct (run_phase_hunter_agent stock_code w) as [o1 w1] eqn:E1.
  destruct (run_volume_detective_agent stock_code w1) as [o2 w2] eqn:E2.
  destruct (run_spring_hunter_agent stock_code w2) as [o3 w3] eqn:E3.
  destruct (run_target_engineer_agent stock_code w3) as [o4 w4] eqn:E4.
  destruct (run_strength_commander_agent stock_code w4) as [o5 w5] eqn:E5.
  unfold bind.
  erewrite expert_block by (simpl; exact E1). cbv beta iota.
  erewrite expert_block by (simpl; exact E2). cbv beta iota.
  erewrite expert_block by (simpl; exact E3). cbv beta iota.
  erewrite expert_block by (simpl; exact E4). cbv beta iota.
  erewrite expert_block by (simpl; exact E5). cbv beta iota.
  match goal with
  | |- context [chief_strategist _ _ ?f] =>
      destruct (chief_strategist_value f) as (v & w' & -> & Hv)
  end.
  cbn [expert_reports world] in Hv.
  match type of Hv with
  | context [run_chief_strategist_agent ?reports ?w0] =>
      destruct (Hdown reports w0) as [e He];
      destruct (run_chief_strategist_agent reports w0) as [o w6]
  end.
  simpl in He. subst o v.
  eexists _, _. split; [reflexivity |].
  split; [reflexivity |]. split; [reflexivity |].
  by destruct o1, o2, o3, o4, o5.
Qed.

End orchestrator_more.

Lemma aggregator_failure_witness :
  exists result f,
    Orchestrator.run_wyckoff_multi_agent_analysis
      (Scenario.reporting_runner "阶段猎手") (Scenario.reporting_runner "量能侦探")
      (Scenario.reporting_runner "弹簧猎人") (Scenario.reporting_runner "目标工程师")
      (Scenario.reporting_runner "强度指挥官")
      Cases.aggregator_down Scenario.json_dumps Scenario.timestamp
      "300750" (Orchestrator.enter 0%nat)
    = (Ret result, f)
    /\ Agent.field "综合策略" result = Some (Agent.PDict [])
    /\ Agent.field "专家分析报告" result
       = Some (Agent.PList (Orchestrator.expert_reports f))
    /\ Orchestrator.expert_reports f
       = omap Orchestrator.returned
           (fst (Orchestrator.runner_outcomes
                   (Orchestrator.declared_roles
                      (Scenario.reporting_runner "阶段猎手")
                      (Scenario.reporting_runner "量能侦探")
                      (Scenario.reporting_runner "弹簧猎人")
                      (Scenario.reporting_runner "目标工程师")
                      (Scenario.reporting_runner "强度指挥官"))
                   "300750" 0%nat)).
Proof.
  apply (aggregator_failure_gives_empty_consensus
           (Scenario.reporting_runner "阶段猎手")
           (Scenario.reporting_runner "量能侦探")
           (Scenario.reporting_runner "弹簧猎人")
           (Scenario.reporting_runner "目标工程师")
           (Scenario.reporting_runner "强度指挥官")
           Cases.aggregator_down Scenario.json_dumps Scenario.timestamp
           "300750" 0%nat).
  intros reports w0. by exists Scenario.timeout_error.
Defined.

(* ===================================================================== *)
(** * The benchmark index                                                  *)
(* ===================================================================== *)

Section index_facts.
Import Index.
Context {E : Type}.
Variable stock_zh_index_daily : string -> M E (option DataFrame).

Implicit Types (s : state (E := E)).

(** One call of [get_index_data] asks the provider once, for the symbol
    with its exchange in front; it gives a DataFrame only when the provider
    returned one that is not empty, and raises nothing. *)
Lemma get_index_data_once symbol s :
  let asked := if String.prefix "0" symbol then "sh" +:+ symbol
               else if String.prefix "3" symbol then "sz" +:+ symbol
               else symbol in
  exists r e',
    get_index_data stock_zh_index_daily symbol s
    = (Ret r, mkState e' (requests s ++ [asked]))
    /\ (forall df, r = Some df -> empty df = false).
Proof.
  intros asked.
  assert (Hbody : exists r e',
    get_index_data_body stock_zh_index_daily symbol s
    = (Ret r, mkState e' (requests s ++ [asked]))
    /\ (forall df, r = Some df -> empty df = false)).
  { unfold get_index_data_body, try_except, bind, request, ret. fold asked.
    destruct (stock_zh_index_daily asked (provider s)) as [[[df|]|e] e'];
      simpl; try (eexists _, _; split; [reflexivity | discriminate]).
    destruct (empty df) eqn:Hempty;
      eexists _, _; (split; [reflexivity |]); [discriminate |].
    by intros ? [= <-]. }
  destruct Hbody as (r & e' & Hbody & Hr). exists r, e'.
  split; [|exact Hr].
  unfold get_index_data, Retry.wrapper. change (range 3) with [0; 1; 2].
  by erewrite attempts_returns by eassumption.
Qed.

Lemma benchmark_prefixes stock_code :
  String.prefix "6" stock_code || String.prefix "000" stock_code = true ->
  String.prefix "3" stock_code || String.prefix "002" stock_code = false.
Proof.
  destruct stock_code as [|a [|b [|c rest]]]; cbn [String.prefix];
    repeat match goal with
           | |- context [Ascii.ascii_dec ?x ?y] =>
               destruct (Ascii.ascii_dec x y) as [?|?];
               try discriminate; subst
           end;
    cbn [orb]; done.
Qed.


End index_facts.

(* ===================================================================== *)
(** * Stock codes                                                          *)
(* ===================================================================== *)

Section code_facts.
Import Codes.
Variables (isspace isdigit : Ascii.ascii -> bool).

Lemma convert_returns_iff code r :
  convert isspace isdigit code = Ret r
  <-> exists market,
        get_market (bare isspace code) = Some market
        /\ str_isdigit isdigit (bare isspace code) = true
        /\ String.length (bare isspace code) = 6%nat
        /\ r = market +:+ bare isspace code.
Proof.
  unfold convert, get_market.
  destruct (str_isdigit isdigit (bare isspace code)) eqn:Hd;
    destruct (Nat.eqb_spec (String.length (bare isspace code)) 6) as [Hl|Hl];
    cbn [negb andb];
    try (split; [discriminate | intros (m & _ & ? & ? & _); congruence]).
  destruct (startswith ["6"; "5"; "9"] (bare isspace code)).
  { split; [intros [=]; subst r; by exists "sh"
           | by intros (m & [= <-] & _ & _ & ->)]. }
  destruct (startswith ["0"; "1"; "2"; "3"] (bare isspace code)).
  { split; [intros [=]; subst r; by exists "sz"
           | by intros (m & [= <-] & _ & _ & ->)]. }
  split; [discriminate | by intros (m & [=] & _)].
Qed.

(** X20: [convert] returns exactly for the codes that, stripped and without
    their exchange, are six digits for which [get_market] knows the
    exchange, and it puts that exchange in front: the two functions agree
    on the exchange, and a six-digit code that starts with 4, 7 or 8 is
    refused by both. *)
Theorem convert_agrees_with_get_market code r :
  convert isspace isdigit code = Ret r
  <-> exists market,
        get_market (bare isspace code) = Some market
        /\ str_isdigit isdigit (bare isspace code) = true
        /\ String.length (bare isspace code) = 6%nat
        /\ r = market +:+ bare isspace code.
Proof. apply convert_returns_iff. Qed.

Lemma strip_clean s :
  all_chars (fun c => negb (isspace c)) s = true -> strip isspace s = s.
Proof.
  intros Hclean. unfold strip.
  assert (Hl : lstrip isspace s = s).
  { destruct s as [|c s]; [reflexivity |]. simpl in *.
    apply andb_true_iff in Hclean as [Hc _].
    apply negb_true_iff in Hc. by rewrite Hc. }
  rewrite Hl. clear Hl.
  induction s as [|c s IH]; [reflexivity |]. simpl in *.
  apply andb_true_iff in Hclean as [Hc Hs]. apply negb_true_iff in Hc.
  rewrite (IH Hs). destruct s; [by rewrite Hc | reflexivity].
Qed.

Lemma substring_whole s : String.substring 0 (String.length s) s = s.
Proof. induction s as [|c s IH]; [reflexivity |]. simpl. by rewrite IH. Qed.

Lemma digits_clean s :
  (forall c, isdigit c = true -> isspace c = false) ->
  all_chars isdigit s = true ->
  all_chars (fun c => negb (isspace c)) s = true.
Proof.
  intros Hds. induction s as [|c s IH]; [reflexivity |]. simpl.
  intros [Hc Hs]%andb_true_iff. by rewrite (Hds c Hc), IH.
Qed.

(** X21: [convert] takes its own results: when the letters s, h and z and the
    digits are not whitespace, a code that [convert] returned is returned
    unchanged when it is given to [convert] again. *)
Theorem convert_idempotent code r :
  all_chars (fun c => negb (isspace c)) "shz" = true ->
  (forall c, isdigit c = true -> isspace c = false) ->
  convert isspace isdigit code = Ret r ->
  convert isspace isdigit r = Ret r.
Proof.
  intros Hletters Hds Hconv.
  apply convert_returns_iff in Hconv
    as (market & Hm & Hd & Hl & ->).
  apply convert_returns_iff. exists market.
  set (body := bare isspace code) in *. clearbody body.
  assert (Hbare : bare isspace (market +:+ body) = body).
  { simpl in Hletters.
    apply andb_true_iff in Hletters as [Hs [Hh [Hz _]%andb_true_iff]%andb_true_iff].
    assert (Hbody : all_chars (fun c => negb (isspace c)) body = true).
    { apply digits_clean; [exact Hds |].
      unfold str_isdigit in Hd. by apply andb_true_iff in Hd as [_ Hd]. }
    unfold bare. unfold get_market in Hm.
    assert (Hcases : market = "sh" \/ market = "sz")
      by (repeat case_match; simplify_eq; auto).
    destruct Hcases as [-> | ->].
    - rewrite strip_clean.
      + destruct body as [|c1 [|c2 [|c3 [|c4 [|c5 [|c6 [|]]]]]]];
          try discriminate. reflexivity.
      + cbv [String.append]. cbn [all_chars].
        by rewrite Hs, Hh, Hbody.
    - rewrite strip_clean.
      + destruct body as [|c1 [|c2 [|c3 [|c4 [|c5 [|c6 [|]]]]]]];
          try discriminate. reflexivity.
      + cbv [String.append]. cbn [all_chars].
        by rewrite Hs, Hz, Hbody. }
  rewrite Hbare. by repeat split.
Qed.

End code_facts.

Lemma convert_idempotent_witness :
  Codes.convert Codes.ascii_isspace Codes.ascii_isdigit "sh600519" = Ret "sh600519".
Proof.
  apply (convert_idempotent Codes.ascii_isspace Codes.ascii_isdigit
           "  600519 " "sh600519").
  - reflexivity.
  - intros c Hc. unfold Codes.ascii_isdigit, Codes.ascii_isspace in *.
    apply andb_true_iff in Hc as [Hlo Hhi].
    apply Nat.leb_le in Hlo. apply Nat.leb_le in Hhi.
    apply orb_false_iff. split; apply andb_false_iff.
    + right. apply Nat.leb_gt. lia.
    + right. apply Nat.leb_gt. lia.
  - reflexivity.
Defined.

(* ===================================================================== *)
(** * The fund-flow fetcher and its disk cache                             *)
(* ===================================================================== *)

Section fund_flow_facts.
Import Cache FundFlow.
Context {E : Type}.
Variable ak_fund_flow : string -> string -> M E (option DataFrame).
Variable to_datetime : DataFrame -> outcome DataFrame.
Variable strptime : string -> outcome Z.
Variable strftime : Q -> string.
Variable select_dates : DataFrame -> Z -> Z -> outcome DataFrame.
Variable open_error : string -> world -> option exn.
Variable dump_error : DataFrame -> world -> option exn.

Abbreviation flow_body := (stock_individual_fund_flow_body ak_fund_flow
  to_datetime strptime strftime select_dates open_error dump_error).
Abbreviation flow := (stock_individual_fund_flow ak_fund_flow
  to_datetime strptime strftime select_dates open_error dump_error).

Implicit Types (s : state (E := E)) (df : DataFrame).

(** What the decorator makes of a body that leaves the state alone: the
    value when the body returns, [None] after three calls when it raises. *)
Lemma decorated_stable symbol date_range s (o : outcome (option DataFrame)) :
  flow_body symbol date_range s = (o, s) ->
  exists tr,
    flow symbol date_range s
    = (match o with Ret r => r | Raise _ => None end, s, tr).
Proof.
  intros Hbody. unfold stock_individual_fund_flow, Retry.wrapper.
  change (range 3) with [0; 1; 2].
  destruct o as [r|e].
  - erewrite attempts_returns by eassumption. by eexists.
  - erewrite attempts_raises_early by (eassumption || lia).
    erewrite attempts_raises_early by (eassumption || lia).
    erewrite attempts_raises_last by (eassumption || lia).
    by eexists.
Qed.

Lemma decorated_returns symbol date_range s r s' :
  flow_body symbol date_range s = (Ret r, s') ->
  flow symbol date_range s = (r, s', [Retry.EvCall 0]).
Proof.
  intros Hbody. unfold stock_individual_fund_flow, Retry.wrapper.
  change (range 3) with [0; 1; 2].
  by erewrite attempts_returns by eassumption.
Qed.

Lemma fund_flow_hit symbol date_range s f df start_date end_date :
  files (disk s) !! get_cache_path symbol "fund_flow" = Some f ->
  content f = Pickled df ->
  (now (disk s) - st_mtime f <= inject_Z (24 * 3600))%Q ->
  strptime (fst (resolve strftime date_range (disk s))) = Ret start_date ->
  strptime (snd (resolve strftime date_range (disk s))) = Ret end_date ->
  exists tr,
    stock_individual_fund_flow ak_fund_flow to_datetime strptime strftime
      select_dates open_error dump_error symbol date_range s
    = (match select_dates df start_date end_date with
       | Ret rows => Some rows
       | Raise _ => None
       end, s, tr).
Proof.
  intros Hf Hc Hage Hstart Hend.
  pose proof (load_cache_served _ _ _ _ _ _ Hf Hc Hage) as Hload.
  destruct s as [d e reqs]. simpl in *.
  assert (Hbody : flow_body symbol date_range (mkState d e reqs)
            = (match select_dates df start_date end_date with
               | Ret rows => Ret (Some rows)
               | Raise err => Raise err
               end, mkState d e reqs)).
  { unfold stock_individual_fund_flow_body, bind, pure, on_disk, ret,
      _filter_data_by_date_range. simpl.
    rewrite Hstart, Hend, Hload.
    by destruct (select_dates df start_date end_date). }
  destruct (decorated_stable _ _ _ _ Hbody) as [tr ->]. exists tr.
  by destruct (select_dates df start_date end_date).
Qed.

(** X22: A readable cache entry that is not older than 24 hours is served: the
    provider is not asked and nothing changes; the caller gets the cached
    rows of the date range, or [None] when selecting them raises. *)
Theorem fund_flow_served_from_cache symbol date_range s f df start_date end_date :
  files (disk s) !! get_cache_path symbol "fund_flow" = Some f ->
  content f = Pickled df ->
  (now (disk s) - st_mtime f <= inject_Z (24 * 3600))%Q ->
  strptime (fst (resolve strftime date_range (disk s))) = Ret start_date ->
  strptime (snd (resolve strftime date_range (disk s))) = Ret end_date ->
  exists tr,
    stock_individual_fund_flow ak_fund_flow to_datetime strptime strftime
      select_dates open_error dump_error symbol date_range s
    = (match select_dates df start_date end_date with
       | Ret rows => Some rows
       | Raise _ => None
       end, s, tr).
Proof. apply fund_flow_hit. Qed.

(** X23: Without a usable cache entry and with a symbol whose market is not
    known, the caller gets [None]; the provider is not asked. *)
Theorem fund_flow_unknown_market symbol date_range s d' :
  load_cache symbol "fund_flow" 24 (disk s) = (Ret None, d') ->
  Codes.get_market symbol = None ->
  exists s' tr,
    stock_individual_fund_flow ak_fund_flow to_datetime strptime strftime
      select_dates open_error dump_error symbol date_range s = (None, s', tr)
    /\ requests s' = requests s
    /\ provider s' = provider s.
Proof.
  intros Hload Hmarket. destruct s as [d e reqs]. simpl in *.
  destruct (strptime (fst (resolve strftime date_range d))) as [a|err] eqn:Hstart.
  2:{ assert (Hbody : flow_body symbol date_range (mkState d e reqs)
                      = (Raise err, mkState d e reqs)).
      { unfold stock_individual_fund_flow_body, bind, pure. simpl.
        by rewrite Hstart. }
      destruct (decorated_stable _ _ _ _ Hbody) as [tr ->].
      by eexists _, _. }
  destruct (strptime (snd (resolve strftime date_range d))) as [b|err] eqn:Hend.
  2:{ assert (Hbody : flow_body symbol date_range (mkState d e reqs)
                      = (Raise err, mkState d e reqs)).
      { unfold stock_individual_fund_flow_body, bind, pure. simpl.
        by rewrite Hstart, Hend. }
      destruct (decorated_stable _ _ _ _ Hbody) as [tr ->].
      by eexists _, _. }
  assert (Hbody : flow_body symbol date_range (mkState d e reqs)
                  = (Ret None, mkState d' e reqs)).
  { unfold stock_individual_fund_flow_body, bind, pure, on_disk, ret. simpl.
    by rewrite Hstart, Hend, Hload, Hmarket. }
  rewrite (decorated_returns _ _ _ _ _ Hbody). by eexists _, _.
Qed.

(** X24: An answer of the provider that cannot be used, because the request
    raises, gives [None] or an empty DataFrame, or the DataFrame has no
    date column, is not retried and not cached: the caller gets [None]
    after one request. *)
Theorem fund_flow_unusable_answer
    symbol date_range s d' market o e' start_date end_date :
  strptime (fst (resolve strftime date_range (disk s))) = Ret start_date ->
  strptime (snd (resolve strftime date_range (disk s))) = Ret end_date ->
  load_cache symbol "fund_flow" 24 (disk s) = (Ret None, d') ->
  Codes.get_market symbol = Some market ->
  ak_fund_flow symbol market (provider s) = (o, e') ->
  match o with
  | Ret (Some df) => empty df = true \/ "日期" ∉ columns df
  | _ => True
  end ->
  stock_individual_fund_flow ak_fund_flow to_datetime strptime strftime
    select_dates open_error dump_error symbol date_range s
  = (None, mkState d' e' (requests s ++ [(symbol, market)]), [Retry.EvCall 0]).
Proof.
  intros Hstart Hend Hload Hmarket Hask Hbad.
  destruct s as [d e reqs]. simpl in *.
  apply decorated_returns.
  unfold stock_individual_fund_flow_body, bind, pure, on_disk, ret,
    try_except, request. simpl.
  rewrite Hstart, Hend, Hload, Hmarket. simpl. rewrite Hask.
  destruct o as [[df|]|err]; [|done..].
  destruct Hbad as [-> | Hcol]; [done |].
  destruct (empty df); [done |].
  by rewrite bool_decide_eq_false_2.
Qed.

(** X25: A fetch and the read after it: with no usable cache entry, a usable
    answer of the provider is converted and the rows of the date range are
    returned after one request; when the write of the cache file goes
    through, the converted frame is under the symbol, and a call with the
    same range within 24 hours returns the same rows and asks the provider
    nothing. *)
Theorem fund_flow_fetch_then_cache
    symbol range s d' market df e' converted start_date end_date delta :
  strptime (fst range) = Ret start_date ->
  strptime (snd range) = Ret end_date ->
  load_cache symbol "fund_flow" 24 (disk s) = (Ret None, d') ->
  Codes.get_market symbol = Some market ->
  ak_fund_flow symbol market (provider s) = (Ret (Some df), e') ->
  empty df = false ->
  "日期" ∈ columns df ->
  to_datetime df = Ret converted ->
  writes open_error dump_error converted symbol "fund_flow" d' ->
  (delta <= inject_Z (24 * 3600))%Q ->
  let rows := match select_dates converted start_date end_date with
              | Ret rows => Some rows
              | Raise _ => None
              end in
  let s1 := mkState
              (set_files (<[get_cache_path symbol "fund_flow"
                            := mkFile (now d') (Pickled converted)]> (files d')) d')
              e' (requests s ++ [(symbol, market)]) in
  let later := mkState (elapse delta (disk s1)) (provider s1) (requests s1) in
  stock_individual_fund_flow ak_fund_flow to_datetime strptime strftime
    select_dates open_error dump_error symbol (Some range) s
  = (rows, s1, [Retry.EvCall 0])
  /\ exists tr,
       stock_individual_fund_flow ak_fund_flow to_datetime strptime strftime
         select_dates open_error dump_error symbol (Some range) later
       = (rows, later, tr).
Proof.
  intros Hstart Hend Hload Hmarket Hask Hfull Hcol Hconv Hwrites Hdelta
    rows s1 later.
  pose proof (save_cache_written _ _ _ _ _ _ Hwrites) as Hsave.
  split.
  - destruct s as [d e reqs]. simpl in *.
    apply decorated_returns.
    unfold stock_individual_fund_flow_body, bind, pure, on_disk, ret,
      try_except, request, _filter_data_by_date_range. simpl.
    rewrite Hstart, Hend, Hload, Hmarket. simpl. rewrite Hask, Hfull.
    rewrite bool_decide_eq_true_2 by done. rewrite Hconv. simpl.
    rewrite Hsave. simpl. subst rows.
    by destruct (select_dates converted start_date end_date).
  - apply fund_flow_hit with (f := mkFile (now d') (Pickled converted)).
    + simpl. apply lookup_insert_eq.
    + reflexivity.
    + simpl. lra.
    + exact Hstart.
    + exact Hend.
Qed.

End fund_flow_facts.

Lemma fund_flow_served_witness :
  exists tr,
    FundFlow.stock_individual_fund_flow Cases.flow_provider Cases.to_datetime
      Cases.strptime Cases.strftime Cases.select_dates
      Cases.disk_open Cases.disk_dump "300750"
      Cases.half_year Cases.flow_cached
    = (match Cases.select_dates Scenario.dataset 20270 20453 with
       | Ret rows => Some rows
       | Raise _ => None
       end, Cases.flow_cached, tr).
Proof.
  apply (fund_flow_served_from_cache Cases.flow_provider Cases.to_datetime
           Cases.strptime Cases.strftime Cases.select_dates
      Cases.disk_open Cases.disk_dump "300750"
           Cases.half_year Cases.flow_cached
           (Cache.mkFile 0 (Cache.Pickled Scenario.dataset)) Scenario.dataset
           20270 20453).
  - apply lookup_singleton_eq.
  - reflexivity.
  - by apply Qle_bool_iff.
  - reflexivity.
  - reflexivity.
Defined.

Lemma fund_flow_unknown_market_witness :
  exists s' tr,
    FundFlow.stock_individual_fund_flow Cases.flow_provider Cases.to_datetime
      Cases.strptime Cases.strftime Cases.select_dates
      Cases.disk_open Cases.disk_dump "830799"
      Cases.half_year Cases.flow_start = (None, s', tr)
    /\ FundFlow.requests s' = FundFlow.requests Cases.flow_start
    /\ FundFlow.provider s' = FundFlow.provider Cases.flow_start.
Proof.
  apply (fund_flow_unknown_market Cases.flow_provider Cases.to_datetime
           Cases.strptime Cases.strftime Cases.select_dates
      Cases.disk_open Cases.disk_dump "830799"
           Cases.half_year Cases.flow_start (Cache.mkWorld 100 ∅));
    reflexivity.
Defined.

Lemma fund_flow_unusable_witness :
  FundFlow.stock_individual_fund_flow Cases.flow_provider_down
    Cases.to_datetime Cases.strptime Cases.strftime Cases.select_dates
    Cases.disk_open Cases.disk_dump "300750" Cases.half_year Cases.flow_start
  = (None,
     FundFlow.mkState (Cache.mkWorld 100 ∅) 1%nat
       (FundFlow.requests Cases.flow_start ++ [("300750", "sz")]),
     [Retry.EvCall 0]).
Proof.
  apply (fund_flow_unusable_answer Cases.flow_provider_down Cases.to_datetime
           Cases.strptime Cases.strftime Cases.select_dates
      Cases.disk_open Cases.disk_dump "300750"
           Cases.half_year Cases.flow_start (Cache.mkWorld 100 ∅) "sz"
           (Raise Scenario.timeout_error) 1%nat 20270 20453);
    first [reflexivity | exact I].
Defined.

Lemma fund_flow_fetch_then_cache_witness :
  let rows := match Cases.select_dates Scenario.dataset 20270 20453 with
              | Ret rows => Some rows
              | Raise _ => None
              end in
  let s1 := FundFlow.mkState
              (Cache.mkWorld 100
                 {[ Cache.get_cache_path "300750" "fund_flow"
                    := Cache.mkFile 100 (Cache.Pickled Scenario.dataset) ]})
              1%nat
              (FundFlow.requests Cases.flow_start ++ [("300750", "sz")]) in
  let later := FundFlow.mkState (Cache.elapse 7200 (FundFlow.disk s1))
                 (FundFlow.provider s1) (FundFlow.requests s1) in
  FundFlow.stock_individual_fund_flow Cases.flow_provider Cases.to_datetime
    Cases.strptime Cases.strftime Cases.select_dates
    Cases.disk_open Cases.disk_dump "300750"
    (Some ("20250701", "20251231")) Cases.flow_start
  = (rows, s1, [Retry.EvCall 0])
  /\ exists tr,
       FundFlow.stock_individual_fund_flow Cases.flow_provider
         Cases.to_datetime Cases.strptime Cases.strftime Cases.select_dates
         Cases.disk_open Cases.disk_dump
         "300750" (Some ("20250701", "20251231")) later
       = (rows, later, tr).
Proof.
  apply (fund_flow_fetch_then_cache Cases.flow_provider Cases.to_datetime
           Cases.strptime Cases.strftime Cases.select_dates
           Cases.disk_open Cases.disk_dump "300750"
           ("20250701", "20251231") Cases.flow_start (Cache.mkWorld 100 ∅)
           "sz" Scenario.dataset 1%nat Scenario.dataset 20270 20453 7200);
    try reflexivity.
  - apply list_elem_of_In. simpl. by left.
  - split; reflexivity.
  - by apply Qle_bool_iff.
Defined.
